(** * gst-realsensesrc: the RealSense capture source element

    A shallow embedding of [gstrealsensesrc.cpp] / [gstrealsensesrc.h]:
    the mode tables and their validator, the element's instance structure,
    the property setter, the lifecycle entry points (start, stop, unlock,
    unlock_stop, get_caps) and the per-frame [create] path.

    C [int]/[guint] values are carried as [Z]; where the source narrows a
    value ([guint8] stores, the [guint] frame size) the wrap-around is
    written out.  A C++ function that can leave through an exception is
    given an [outcome], so that "returns FALSE" and "an exception leaves the
    function" stay distinct. *)

From Stdlib Require Import ZArith String List Bool Lia.
Import ListNotations.
Local Open Scope Z_scope.

(* ===================================================================== *)
(** ** Mode tables and the mode validator *)
(* ===================================================================== *)

Module Modes.

(** A (width, height, fps) tuple, as [std::tuple<int, int, int>]. *)
Definition mode : Type := (Z * Z * Z)%type.

Definition valid_color_modes : list mode :=
  [ (1920, 1080, 6); (1920, 1080, 15); (1920, 1080, 30);
    (1280, 720, 6); (1280, 720, 15); (1280, 720, 30);
    (960, 540, 6); (960, 540, 15); (960, 540, 30); (960, 540, 60);
    (848, 480, 6); (848, 480, 15); (848, 480, 30); (848, 480, 60);
    (640, 480, 6); (640, 480, 15); (640, 480, 30); (640, 480, 60);
    (640, 360, 6); (640, 360, 15); (640, 360, 30); (640, 360, 60);
    (424, 240, 6); (424, 240, 15); (424, 240, 30); (424, 240, 60);
    (320, 240, 6); (320, 240, 30); (320, 240, 60);
    (320, 180, 6); (320, 180, 30); (320, 180, 60) ].

Definition valid_depth_modes : list mode :=
  [ (1280, 720, 6); (1280, 720, 15); (1280, 720, 30);
    (848, 480, 6); (848, 480, 15); (848, 480, 30); (848, 480, 60); (848, 480, 90);
    (640, 480, 6); (640, 480, 15); (640, 480, 30); (640, 480, 60); (640, 480, 90);
    (640, 360, 6); (640, 360, 15); (640, 360, 30); (640, 360, 60); (640, 360, 90);
    (480, 270, 6); (480, 270, 15); (480, 270, 30); (480, 270, 60); (480, 270, 90);
    (424, 240, 6); (424, 240, 15); (424, 240, 30); (424, 240, 60); (424, 240, 90) ].

(** [is_valid_mode]: the range-for over the table, returning at the first
    tuple whose three components all match. *)
Fixpoint is_valid_mode (modes : list mode) (w h fps : Z) : bool :=
  match modes with
  | [] => false
  | (tw, th, tf) :: rest =>
      if (tw =? w) && (th =? h) && (tf =? fps) then true
      else is_valid_mode rest w h fps
  end.

End Modes.
Export Modes.

(* ===================================================================== *)
(** ** The instance structure *)
(* ===================================================================== *)

(** [enum Align { None, Color, Depth }]. *)
Inductive Align : Type := AlignNone | AlignColor | AlignDepth.

(** [static_cast<Align>(g_value_get_int(value))]: the property's range is
    [Align::None .. Align::Depth]; any other integer stays an out-of-enum
    value, which [start] only warns about. *)
Inductive AlignValue : Type :=
| AlignOf (a : Align)
| AlignUnknown (raw : Z).

Definition align_of_int (v : Z) : AlignValue :=
  if v =? 0 then AlignOf AlignNone
  else if v =? 1 then AlignOf AlignColor
  else if v =? 2 then AlignOf AlignDepth
  else AlignUnknown v.

(** What [gst_video_info_to_caps] records of the negotiated format. *)
Record VideoCaps : Type := mkVideoCaps {
  caps_width : Z;
  caps_height : Z;
  caps_fps_n : Z;
  caps_fps_d : Z
}.

(** The librealsense pipeline object behind [rs_pipe_ptr]: all the element
    observes of it is whether continuous acquisition is running. *)
Record rs2_pipeline : Type := mkPipeline {
  pipeline_running : bool
}.

(** The fields of [struct _GstRealsenseSrc] the element's code reads or
    writes. [rs_pipeline], [aligner], [caps] and [preset_file] are
    pointers: [None] is the null pointer. *)
Record GstRealsenseSrc : Type := mkSrc {
  out_framesize : Z;
  stop_requested : bool;
  caps : option VideoCaps;
  gst_stride : Z;
  frame_count : Z;
  rs_pipeline : option rs2_pipeline;
  aligner : option Align;
  align : AlignValue;
  color_width : Z;
  color_height : Z;
  color_fps : Z;
  depth_width : Z;
  depth_height : Z;
  depth_fps : Z;
  preset_file : option string
}.

Definition set_out_framesize v s := mkSrc v (stop_requested s) (caps s) (gst_stride s) (frame_count s) (rs_pipeline s) (aligner s) (align s) (color_width s) (color_height s) (color_fps s) (depth_width s) (depth_height s) (depth_fps s) (preset_file s).
Definition set_stop_requested v s := mkSrc (out_framesize s) v (caps s) (gst_stride s) (frame_count s) (rs_pipeline s) (aligner s) (align s) (color_width s) (color_height s) (color_fps s) (depth_width s) (depth_height s) (depth_fps s) (preset_file s).
Definition set_caps_field v s := mkSrc (out_framesize s) (stop_requested s) v (gst_stride s) (frame_count s) (rs_pipeline s) (aligner s) (align s) (color_width s) (color_height s) (color_fps s) (depth_width s) (depth_height s) (depth_fps s) (preset_file s).
Definition set_gst_stride v s := mkSrc (out_framesize s) (stop_requested s) (caps s) v (frame_count s) (rs_pipeline s) (aligner s) (align s) (color_width s) (color_height s) (color_fps s) (depth_width s) (depth_height s) (depth_fps s) (preset_file s).
Definition set_frame_count v s := mkSrc (out_framesize s) (stop_requested s) (caps s) (gst_stride s) v (rs_pipeline s) (aligner s) (align s) (color_width s) (color_height s) (color_fps s) (depth_width s) (depth_height s) (depth_fps s) (preset_file s).
Definition set_rs_pipeline v s := mkSrc (out_framesize s) (stop_requested s) (caps s) (gst_stride s) (frame_count s) v (aligner s) (align s) (color_width s) (color_height s) (color_fps s) (depth_width s) (depth_height s) (depth_fps s) (preset_file s).
Definition set_aligner v s := mkSrc (out_framesize s) (stop_requested s) (caps s) (gst_stride s) (frame_count s) (rs_pipeline s) v (align s) (color_width s) (color_height s) (color_fps s) (depth_width s) (depth_height s) (depth_fps s) (preset_file s).
Definition set_align v s := mkSrc (out_framesize s) (stop_requested s) (caps s) (gst_stride s) (frame_count s) (rs_pipeline s) (aligner s) v (color_width s) (color_height s) (color_fps s) (depth_width s) (depth_height s) (depth_fps s) (preset_file s).
Definition set_color_width v s := mkSrc (out_framesize s) (stop_requested s) (caps s) (gst_stride s) (frame_count s) (rs_pipeline s) (aligner s) (align s) v (color_height s) (color_fps s) (depth_width s) (depth_height s) (depth_fps s) (preset_file s).
Definition set_color_height v s := mkSrc (out_framesize s) (stop_requested s) (caps s) (gst_stride s) (frame_count s) (rs_pipeline s) (aligner s) (align s) (color_width s) v (color_fps s) (depth_width s) (depth_height s) (depth_fps s) (preset_file s).
Definition set_color_fps v s := mkSrc (out_framesize s) (stop_requested s) (caps s) (gst_stride s) (frame_count s) (rs_pipeline s) (aligner s) (align s) (color_width s) (color_height s) v (depth_width s) (depth_height s) (depth_fps s) (preset_file s).
Definition set_depth_width v s := mkSrc (out_framesize s) (stop_requested s) (caps s) (gst_stride s) (frame_count s) (rs_pipeline s) (aligner s) (align s) (color_width s) (color_height s) (color_fps s) v (depth_height s) (depth_fps s) (preset_file s).
Definition set_depth_height v s := mkSrc (out_framesize s) (stop_requested s) (caps s) (gst_stride s) (frame_count s) (rs_pipeline s) (aligner s) (align s) (color_width s) (color_height s) (color_fps s) (depth_width s) v (depth_fps s) (preset_file s).
Definition set_depth_fps v s := mkSrc (out_framesize s) (stop_requested s) (caps s) (gst_stride s) (frame_count s) (rs_pipeline s) (aligner s) (align s) (color_width s) (color_height s) (color_fps s) (depth_width s) (depth_height s) v (preset_file s).
Definition set_preset_file v s := mkSrc (out_framesize s) (stop_requested s) (caps s) (gst_stride s) (frame_count s) (rs_pipeline s) (aligner s) (align s) (color_width s) (color_height s) (color_fps s) (depth_width s) (depth_height s) (depth_fps s) v.

(** Messages the element posts on the bus ([GST_ELEMENT_WARNING] /
    [GST_ELEMENT_ERROR]), in the order posted. *)
Inductive message : Type :=
| WarnInvalidColorMode (w h fps : Z)
| WarnInvalidDepthMode (w h fps : Z)
| WarnInvalidPropertyId (prop_id : Z)
| WarnPresetFileUnreadable (path : string)
| WarnUnknownAlignment (raw : Z)
| ErrInvalidColorMode (w h fps : Z)
| ErrInvalidDepthMode (w h fps : Z)
| ErrNoDevice
| ErrNotD435i
| ErrSdk (failed_function : string)
| ErrCapsCalculation (failed_function : string)
| ErrAllocate
| ErrMap.

(* ===================================================================== *)
(** ** The property setter *)
(* ===================================================================== *)

(** The [prop_id] values of the anonymous enum, and the [GValue] a setter
    call carries. *)
Inductive property : Type :=
| PROP_ALIGN (v : Z)
| PROP_COLOR_WIDTH (v : Z)
| PROP_COLOR_HEIGHT (v : Z)
| PROP_COLOR_FPS (v : Z)
| PROP_DEPTH_WIDTH (v : Z)
| PROP_DEPTH_HEIGHT (v : Z)
| PROP_DEPTH_FPS (v : Z)
| PROP_PRESET_FILE (v : option string)
| PROP_OTHER (prop_id : Z).

(** The [switch (prop_id)] of [gst_realsense_src_set_property]. *)
Definition assign_property (p : property) (s : GstRealsenseSrc)
  : GstRealsenseSrc * list message :=
  match p with
  | PROP_ALIGN v => (set_align (align_of_int v) s, [])
  | PROP_COLOR_WIDTH v => (set_color_width v s, [])
  | PROP_COLOR_HEIGHT v => (set_color_height v s, [])
  | PROP_COLOR_FPS v => (set_color_fps v s, [])
  | PROP_DEPTH_WIDTH v => (set_depth_width v s, [])
  | PROP_DEPTH_HEIGHT v => (set_depth_height v s, [])
  | PROP_DEPTH_FPS v => (set_depth_fps v s, [])
  | PROP_PRESET_FILE v => (set_preset_file v s, [])
  | PROP_OTHER id => (s, [WarnInvalidPropertyId id])
  end.

(** The "Validate color mode" block. *)
Definition validate_color_mode (s : GstRealsenseSrc)
  : GstRealsenseSrc * list message :=
  if (color_width s >? 0) && (color_height s >? 0) && (color_fps s >? 0) then
    if negb (is_valid_mode valid_color_modes
               (color_width s) (color_height s) (color_fps s))
    then (set_color_fps 30 (set_color_height 720 (set_color_width 1280 s)),
          [WarnInvalidColorMode (color_width s) (color_height s) (color_fps s)])
    else (s, [])
  else (s, []).

(** The "Validate depth mode" block. *)
Definition validate_depth_mode (s : GstRealsenseSrc)
  : GstRealsenseSrc * list message :=
  if (depth_width s >? 0) && (depth_height s >? 0) && (depth_fps s >? 0) then
    if negb (is_valid_mode valid_depth_modes
               (depth_width s) (depth_height s) (depth_fps s))
    then (set_depth_fps 30 (set_depth_height 480 (set_depth_width 640 s)),
          [WarnInvalidDepthMode (depth_width s) (depth_height s) (depth_fps s)])
    else (s, [])
  else (s, []).

Definition gst_realsense_src_set_property (p : property) (s : GstRealsenseSrc)
  : GstRealsenseSrc * list message :=
  let '(s1, m1) := assign_property p s in
  let '(s2, m2) := validate_color_mode s1 in
  let '(s3, m3) := validate_depth_mode s2 in
  (s3, m1 ++ m2 ++ m3).

(** The stored triples. *)
Definition color_mode (s : GstRealsenseSrc) : mode :=
  (color_width s, color_height s, color_fps s).
Definition depth_mode (s : GstRealsenseSrc) : mode :=
  (depth_width s, depth_height s, depth_fps s).

Definition positive_mode (m : mode) : Prop :=
  let '(w, h, f) := m in 0 < w /\ 0 < h /\ 0 < f.

Definition mode_in (modes : list mode) (m : mode) : bool :=
  let '(w, h, f) := m in is_valid_mode modes w h f.

(* ===================================================================== *)
(** ** Outcomes of the C++ entry points *)
(* ===================================================================== *)

(** The two exception types the element's code meets: [rs2::error], thrown
    by librealsense (it carries the name of the failed SDK function), and
    the [std::runtime_error] that [create] throws itself.  [rs2::error]
    derives from [std::runtime_error], so [catch (const rs2::error&)]
    handles the first and not the second. *)
Inductive exception : Type :=
| rs2_error (failed_function : string)
| std_runtime_error (what : string).

(** How a call of an entry point ends: it returns, an exception leaves it
    (none of the callers in GStreamer's C code handles one), or it touches
    memory it does not own (a null [rs_pipeline], a read or write past the
    end of a frame or of the mapped buffer). *)
Inductive outcome (A : Type) : Type :=
| Returned (a : A)
| Uncaught (e : exception)
| MemoryFault.
Arguments Returned {A} a.
Arguments Uncaught {A} e.
Arguments MemoryFault {A}.

(** The result of one librealsense call: a value, or a thrown [rs2::error]. *)
Inductive sdk_result (A : Type) : Type :=
| SdkOk (a : A)
| SdkThrows (failed_function : string).
Arguments SdkOk {A} a.
Arguments SdkThrows {A} failed_function.

(* ===================================================================== *)
(** ** The librealsense and GStreamer operations the element calls *)
(* ===================================================================== *)

(** A frame as the element reads it: [get_width()], [get_height()] and the
    memory behind [get_data()].  For the color frame (RGB8) [frame_data]
    lists bytes; for the depth frame (Z16) it lists 16-bit samples. *)
Record video_frame : Type := mkFrame {
  frame_width : Z;
  frame_height : Z;
  frame_data : list Z
}.

Record frameset : Type := mkFrameset {
  get_color_frame : video_frame;
  get_depth_frame : video_frame
}.

(** [rs2::pipeline::stop()]: librealsense stops a running pipeline and
    raises [rs2::error] ("stop() cannot be called before start()") on one
    that is not running. *)
Definition rs2_pipeline_stop (p : rs2_pipeline) : sdk_result rs2_pipeline :=
  if pipeline_running p then SdkOk (mkPipeline false)
  else SdkThrows "rs2_pipeline_stop".

(** [rs2::pipeline::wait_for_frames()]: on a running pipeline the device
    decides ([pulled]: a frame set, or an error such as a timeout); on one
    that is not running librealsense raises [rs2::error]
    ("wait_for_frames cannot be called before start()"). *)
Definition rs2_wait_for_frames (p : rs2_pipeline) (pulled : sdk_result frameset)
  : sdk_result frameset :=
  if pipeline_running p then pulled
  else SdkThrows "rs2_pipeline_wait_for_frames".

(** [GST_ROUND_UP_4]. *)
Definition GST_ROUND_UP_4 (n : Z) : Z := (n + 3) / 4 * 4.

(** [gst_video_info_set_format (&vinfo, GST_VIDEO_FORMAT_RGB, width, height)]
    followed by [GST_VIDEO_INFO_SIZE]: GStreamer lays packed RGB out in one
    plane whose row stride is [width * 3] rounded up to a multiple of 4,
    and the size is stride times height. *)
Definition GST_VIDEO_INFO_SIZE_RGB (width height : Z) : Z :=
  GST_ROUND_UP_4 (width * 3) * height.

(** Conversion to [guint] (32 bits). *)
Definition to_guint (n : Z) : Z := n mod 2 ^ 32.

(** A product or sum computed in [int] (32 bits, two's complement): the
    value the compiled code holds when the exact result leaves the range. *)
Definition to_gint (n : Z) : Z := (n + 2 ^ 31) mod 2 ^ 32 - 2 ^ 31.

(** Conversion to [guint8]. *)
Definition to_guint8 (n : Z) : Z := n mod 2 ^ 8.

(** Conversion to [guint64] ([GstClockTime], [frame_count]). *)
Definition to_guint64 (n : Z) : Z := n mod 2 ^ 64.

(** Caps values as [get_caps] handles them. *)
Inductive GstCaps : Type :=
| PadTemplateCaps
| VideoInfoCaps (v : VideoCaps)
| CapsIntersect (a b : GstCaps).

(** [gst_caps_copy]: copying a null pointer fails GLib's
    [g_return_val_if_fail (GST_IS_CAPS (caps), NULL)] and yields NULL. *)
Definition gst_caps_copy (c : option VideoCaps) : option GstCaps :=
  match c with
  | Some v => Some (VideoInfoCaps v)
  | None => None
  end.

(* ===================================================================== *)
(** ** reset, init, stop, unlock, unlock_stop, get_caps *)
(* ===================================================================== *)

(** [gst_realsense_src_reset]: the call of [rs_pipeline->stop()] is not
    inside a [try], so an [rs2::error] it raises leaves the function. The
    pointer itself is left as it is. *)
Definition gst_realsense_src_reset (s : GstRealsenseSrc) : outcome GstRealsenseSrc :=
  let finish (s : GstRealsenseSrc) :=
    set_caps_field None (set_frame_count 0 (set_out_framesize 0 s)) in
  match rs_pipeline s with
  | Some p =>
      match rs2_pipeline_stop p with
      | SdkOk p' => Returned (finish (set_rs_pipeline (Some p') s))
      | SdkThrows f => Uncaught (rs2_error f)
      end
  | None => Returned (finish s)
  end.

(** The instance structure as [gst_realsense_src_init] fills it in, before
    its closing call of [reset]; fields it does not assign have the
    header's default member initialisers (GObject zero-fills the rest). *)
Definition init_fields : GstRealsenseSrc :=
  {| out_framesize := 0; stop_requested := false; caps := None;
     gst_stride := 0; frame_count := 0; rs_pipeline := None;
     aligner := None; align := AlignOf AlignColor;
     color_width := 1280; color_height := 720; color_fps := 30;
     depth_width := 640; depth_height := 480; depth_fps := 30;
     preset_file := None |}.

Definition gst_realsense_src_init : outcome GstRealsenseSrc :=
  gst_realsense_src_reset init_fields.

Definition gst_realsense_src_unlock (s : GstRealsenseSrc) : bool * GstRealsenseSrc :=
  (true, set_stop_requested true s).

Definition gst_realsense_src_unlock_stop (s : GstRealsenseSrc) : bool * GstRealsenseSrc :=
  (true, set_stop_requested false s).

Definition gst_realsense_src_stop (s : GstRealsenseSrc) : outcome (bool * GstRealsenseSrc) :=
  match gst_realsense_src_reset s with
  | Returned s' => Returned (true, s')
  | Uncaught e => Uncaught e
  | MemoryFault => MemoryFault
  end.

(** [gst_realsense_src_get_caps]: the branch is chosen by [rs_pipeline],
    the value copied is [caps]; [None] is a NULL return. *)
Definition gst_realsense_src_get_caps (s : GstRealsenseSrc) (filter : option GstCaps)
  : option GstCaps :=
  let caps0 :=
    match rs_pipeline s with
    | None => Some PadTemplateCaps
    | Some _ => gst_caps_copy (caps s)
    end in
  match filter, caps0 with
  | Some f, Some c => Some (CapsIntersect c f)
  | _, _ => caps0
  end.

(** [gst_realsense_src_set_caps]: [vinfo] is what
    [gst_video_info_from_caps] parsed ([None] when it fails): whether the
    format is RGB, and the stride of component 0. *)
Definition gst_realsense_src_set_caps (vinfo : option (bool * Z)) (s : GstRealsenseSrc)
  : bool * GstRealsenseSrc :=
  match vinfo with
  | None => (false, s)
  | Some (is_rgb, stride) =>
      if negb is_rgb then (false, s) else (true, set_gst_stride stride s)
  end.

(* ===================================================================== *)
(** ** calculate_caps and start *)
(* ===================================================================== *)

(** An enumerated device: what [get_info] and [advanced_mode::is_enabled]
    report for it. *)
Record rs2_device : Type := mkDevice {
  dev_name : string;
  dev_serial : string;
  dev_advanced_enabled : bool
}.

(** What the SDK and the file system answer during one call of [start], in
    the order the calls are made.  The calls that can raise [rs2::error]
    here are the device enumeration, the switch to advanced mode, the
    loading of the preset, the start of the pipeline, the first
    [wait_for_frames] and the aligner's [process]; the constructors
    ([rs2::pipeline], [rs2::context], [rs2::config], [rs2::align]),
    [get_info], [as<advanced_mode>], [is_enabled], [enable_device] and
    [enable_stream] are taken to return. *)
Record start_env : Type := mkStartEnv {
  query_devices : sdk_result (list rs2_device);
  toggle_advanced_mode : sdk_result unit;
  open_preset : option string;
  load_json : sdk_result unit;
  pipeline_start : sdk_result unit;
  first_frames : sdk_result frameset;
  first_align : frameset -> sdk_result frameset
}.

(** [src->aligner->process(frame_set)] when an aligner exists. *)
Definition maybe_align (a : option Align) (process : frameset -> sdk_result frameset)
  (fs : frameset) : sdk_result frameset :=
  match a with
  | Some _ => process fs
  | None => SdkOk fs
  end.

(** [gst_realsense_src_calculate_caps].  [gst_base_src_set_caps] hands the
    new caps back to the element's [set_caps], whose only effect is to store
    the row stride in [gst_stride]; no function of the element reads that
    field, and the call-back is left out here. *)
Definition gst_realsense_src_calculate_caps (env : start_env) (s : GstRealsenseSrc)
  : outcome (bool * GstRealsenseSrc * list message) :=
  match rs_pipeline s with
  | None => MemoryFault
  | Some p =>
      match rs2_wait_for_frames p (first_frames env) with
      | SdkThrows f => Returned (false, s, [ErrCapsCalculation f])
      | SdkOk frame_set0 =>
          match maybe_align (aligner s) (first_align env) frame_set0 with
          | SdkThrows f => Returned (false, s, [ErrCapsCalculation f])
          | SdkOk frame_set =>
              let cframe := get_color_frame frame_set in
              let width := to_guint (frame_width cframe) in
              let height := to_guint (frame_height cframe * 2) in
              let vcaps := mkVideoCaps width height 30 1 in
              let size := GST_VIDEO_INFO_SIZE_RGB width height in
              Returned (true,
                        set_out_framesize (to_guint size)
                          (set_caps_field (Some vcaps) s),
                        [])
          end
      end
  end.

(** The preset block of [start] for a D435I. *)
Definition load_preset (env : start_env) (s : GstRealsenseSrc) (dev : rs2_device)
  : sdk_result (list message) :=
  match preset_file s with
  | Some path =>
      if negb (String.eqb path "") then
        match (if negb (dev_advanced_enabled dev)
               then toggle_advanced_mode env else SdkOk tt) with
        | SdkThrows f => SdkThrows f
        | SdkOk _ =>
            match open_preset env with
            | None => SdkOk [WarnPresetFileUnreadable path]
            | Some _ =>
                match load_json env with
                | SdkThrows f => SdkThrows f
                | SdkOk _ => SdkOk []
                end
            end
        end
      else SdkOk []
  | None => SdkOk []
  end.

(** The [switch (src->align)] of [start]. *)
Definition select_aligner (s : GstRealsenseSrc) : GstRealsenseSrc * list message :=
  match align s with
  | AlignOf AlignNone => (s, [])
  | AlignOf AlignColor => (set_aligner (Some AlignColor) s, [])
  | AlignOf AlignDepth => (set_aligner (Some AlignDepth) s, [])
  | AlignUnknown raw => (s, [WarnUnknownAlignment raw])
  end.

Definition D435I_NAME : string := "Intel RealSense D435I".

(** The [try] block of [gst_realsense_src_start]: everything after the two
    mode checks. *)
Definition start_session (env : start_env) (s : GstRealsenseSrc)
  : outcome (bool * GstRealsenseSrc * list message) :=
  let s1 := set_rs_pipeline (Some (mkPipeline false)) s in
  match query_devices env with
  | SdkThrows f => Returned (false, s1, [ErrSdk f])
  | SdkOk [] => Returned (false, s1, [ErrNoDevice])
  | SdkOk (dev :: _) =>
      if String.eqb (dev_name dev) D435I_NAME then
        match load_preset env s1 dev with
        | SdkThrows f => Returned (false, s1, [ErrSdk f])
        | SdkOk m1 =>
            let '(s2, m2) := select_aligner s1 in
            match pipeline_start env with
            | SdkThrows f => Returned (false, s2, m1 ++ m2 ++ [ErrSdk f])
            | SdkOk _ =>
                let s3 := set_rs_pipeline (Some (mkPipeline true)) s2 in
                match gst_realsense_src_calculate_caps env s3 with
                | Returned (ok, s4, m3) => Returned (ok, s4, m1 ++ m2 ++ m3)
                | Uncaught e => Uncaught e
                | MemoryFault => MemoryFault
                end
            end
        end
      else Returned (false, s1, [ErrNotD435i])
  end.

(** [gst_realsense_src_start]: the two mode checks, then the session. *)
Definition gst_realsense_src_start (env : start_env) (s : GstRealsenseSrc)
  : outcome (bool * GstRealsenseSrc * list message) :=
  if negb (is_valid_mode valid_color_modes (color_width s) (color_height s) (color_fps s))
  then Returned (false, s, [ErrInvalidColorMode (color_width s) (color_height s) (color_fps s)])
  else if negb (is_valid_mode valid_depth_modes (depth_width s) (depth_height s) (depth_fps s))
  then Returned (false, s, [ErrInvalidDepthMode (depth_width s) (depth_height s) (depth_fps s)])
  else start_session env s.

(* ===================================================================== *)
(** ** create: the per-frame path *)
(* ===================================================================== *)

Inductive GstFlowReturn : Type := GST_FLOW_OK | GST_FLOW_FLUSHING | GST_FLOW_ERROR.

(** The output buffer: its mapped bytes and the metadata [create] stamps. *)
Record GstBuffer : Type := mkBuffer {
  buf_data : list Z;
  buf_timestamp : Z;
  buf_dts : Z;
  buf_offset : Z
}.

(** What the SDK and the host answer during one call of [create]:
    the pulled frame set, the aligner, the clock and base time, whether
    [gst_buffer_new_and_alloc] and [gst_buffer_map] succeed, and the bytes
    the fresh allocation happens to hold. *)
Record create_env : Type := mkCreateEnv {
  pulled_frames : sdk_result frameset;
  align_process : frameset -> sdk_result frameset;
  clock_time : Z;
  base_time : Z;
  alloc_ok : bool;
  map_ok : bool;
  fresh_byte : nat -> Z
}.

(** The three bytes written for one depth sample. *)
Definition encode_depth (depth_val : Z) : list Z :=
  if depth_val <? 2560 then
    [to_guint8 (depth_val mod 10); to_guint8 (depth_val / 10); to_guint8 (depth_val mod 10)]
  else [0; 0; 0].

(** [memcpy (dst, src, n)] with [dst] the start of the mapped bytes. *)
Definition memcpy_top (data : list Z) (src_bytes : list Z) (n : nat) : option (list Z) :=
  if (n <=? length src_bytes)%nat && (n <=? length data)%nat
  then Some (firstn n src_bytes ++ skipn n data)
  else None.

(** The stores [pixel[0]], [pixel[1]], [pixel[2]] at byte offset [off]. *)
Definition write_pixel (data : list Z) (off : nat) (px : list Z) : option (list Z) :=
  if (off + 3 <=? length data)%nat
  then Some (firstn off data ++ px ++ skipn (off + 3) data)
  else None.

(** One turn of the depth loop: read [depth_data[i]], write the pixel at
    [bottom_half + i * 3]. *)
Definition depth_step (depth_data : list Z) (bottom : nat) (data : list Z) (i : nat)
  : option (list Z) :=
  match nth_error depth_data i with
  | None => None
  | Some depth_val => write_pixel data (bottom + i * 3) (encode_depth depth_val)
  end.

(** [for (int i = 0; i < num_pixels; ++i)]. *)
Definition depth_loop (depth_data : list Z) (bottom : nat) (num_pixels : nat)
  (data : list Z) : option (list Z) :=
  fold_left
    (fun acc i => match acc with
                  | Some d => depth_step depth_data bottom d i
                  | None => None
                  end)
    (seq 0 num_pixels) (Some data).

(** The filling of the mapped buffer, lines "Top half" and "Bottom half". *)
Definition fill_buffer (frame_set : frameset) (data : list Z) : option (list Z) :=
  let cframe := get_color_frame frame_set in
  let depth := get_depth_frame frame_set in
  let num_pixels := to_gint (frame_width cframe * frame_height cframe) in
  let half := (length data / 2)%nat in
  match memcpy_top data (frame_data cframe) half with
  | None => None
  | Some data1 => depth_loop (frame_data depth) half (Z.to_nat num_pixels) data1
  end.

(** What one call of [create] leaves behind: the flow return, the buffer
    stored through [buf], the element, the function-static
    [temp_ugly_buf_index] and the messages posted.  The index is an [int]:
    it is converted to [guint64] for the buffer offset and incremented in
    32 bits. *)
Record create_result : Type := mkCreateResult {
  res_flow : GstFlowReturn;
  res_buf : option GstBuffer;
  res_src : GstRealsenseSrc;
  res_buf_index : Z;
  res_messages : list message
}.

(** [gst_realsense_src_create]. *)
Definition gst_realsense_src_create (env : create_env) (temp_ugly_buf_index : Z)
  (s : GstRealsenseSrc) : outcome create_result :=
  match rs_pipeline s with
  | None => MemoryFault
  | Some p =>
      match rs2_wait_for_frames p (pulled_frames env) with
      | SdkThrows f =>
          Returned (mkCreateResult GST_FLOW_ERROR None s temp_ugly_buf_index [ErrSdk f])
      | SdkOk frame_set0 =>
          match maybe_align (aligner s) (align_process env) frame_set0 with
          | SdkThrows f =>
              Returned (mkCreateResult GST_FLOW_ERROR None s temp_ugly_buf_index [ErrSdk f])
          | SdkOk frame_set =>
              if negb (alloc_ok env) then Uncaught (std_runtime_error "failed to allocate buffer")
              else
                let fresh := map (fresh_byte env) (seq 0 (Z.to_nat (out_framesize s))) in
                if negb (map_ok env) then
                  Returned (mkCreateResult GST_FLOW_ERROR
                              (Some (mkBuffer fresh 0 0 0)) s temp_ugly_buf_index [ErrMap])
                else
                  match fill_buffer frame_set fresh with
                  | None => MemoryFault
                  | Some data =>
                      let ts := to_guint64 (clock_time env - base_time env) in
                      let b := mkBuffer data ts ts (to_guint64 temp_ugly_buf_index) in
                      let s' := set_frame_count (to_guint64 (frame_count s + 1)) s in
                      Returned (mkCreateResult
                                  (if stop_requested s then GST_FLOW_FLUSHING else GST_FLOW_OK)
                                  (Some b) s' (to_gint (temp_ugly_buf_index + 1)) [])
                  end
          end
      end
  end.



(* ===================================================================== *)
(** ** Vocabulary of the statements *)
(* ===================================================================== *)

(** The two configurable streams, with the table, the stored triple, the
    fallback and the warning that belong to each. *)
Inductive stream_kind : Type := ColorStream | DepthStream.

Definition stream_table (k : stream_kind) : list mode :=
  match k with
  | ColorStream => valid_color_modes
  | DepthStream => valid_depth_modes
  end.

Definition stream_mode (k : stream_kind) (s : GstRealsenseSrc) : mode :=
  match k with
  | ColorStream => color_mode s
  | DepthStream => depth_mode s
  end.

Definition fallback_mode (k : stream_kind) : mode :=
  match k with
  | ColorStream => (1280, 720, 30)
  | DepthStream => (640, 480, 30)
  end.

Definition invalid_mode_warning (k : stream_kind) (m : mode) : message :=
  let '(w, h, f) := m in
  match k with
  | ColorStream => WarnInvalidColorMode w h f
  | DepthStream => WarnInvalidDepthMode w h f
  end.

(** Both stored triples are members of their tables. *)
Definition modes_valid (s : GstRealsenseSrc) : Prop :=
  mode_in valid_color_modes (color_mode s) = true /\
  mode_in valid_depth_modes (depth_mode s) = true.

(** A preset payload is configured: the path is neither absent nor empty. *)
Definition preset_configured (s : GstRealsenseSrc) : bool :=
  match preset_file s with
  | Some path => negb (String.eqb path "")
  | None => false
  end.

(** The reading of the preset rule under which only a configured preset can
    make [start] reject the device. *)
Definition unsupported_device_only_with_preset : Prop :=
  forall env s ok s' msgs,
    gst_realsense_src_start env s = Returned (ok, s', msgs) ->
    In ErrNotD435i msgs ->
    preset_configured s = true.

(** The two errors with which [start] refuses a stored mode. *)
Definition mode_error (m : message) : bool :=
  match m with
  | ErrInvalidColorMode _ _ _ | ErrInvalidDepthMode _ _ _ => true
  | _ => false
  end.

(** The ranges the [g_param_spec_int] declarations of [class_init] give the
    integer properties; GObject hands the setter only values inside them. *)
Definition property_in_range (p : property) : bool :=
  match p with
  | PROP_ALIGN v => (0 <=? v) && (v <=? 2)
  | PROP_COLOR_WIDTH v => (1 <=? v) && (v <=? 4096)
  | PROP_COLOR_HEIGHT v => (1 <=? v) && (v <=? 2160)
  | PROP_COLOR_FPS v => (1 <=? v) && (v <=? 120)
  | PROP_DEPTH_WIDTH v => (1 <=? v) && (v <=? 2048)
  | PROP_DEPTH_HEIGHT v => (1 <=? v) && (v <=? 1536)
  | PROP_DEPTH_FPS v => (1 <=? v) && (v <=? 120)
  | PROP_PRESET_FILE _ => true
  | PROP_OTHER _ => true
  end.

(** Element states reached from initialisation through the property
    interface alone. *)
Inductive configured : GstRealsenseSrc -> Prop :=
| configured_init : forall s,
    gst_realsense_src_init = Returned s -> configured s
| configured_set : forall s p,
    configured s -> property_in_range p = true ->
    configured (fst (gst_realsense_src_set_property p s)).

(** The conditions under which a call of [create] runs to its final
    [return]: acquisition is running, the device delivers a frame set, the
    aligner (if any) accepts it, allocation and mapping succeed, and the
    frame set fits the buffer ([filled] is the buffer's content). *)
Definition create_completes (env : create_env) (s : GstRealsenseSrc)
  (fs : frameset) (filled : list Z) : Prop :=
  exists fs0,
    rs_pipeline s = Some (mkPipeline true) /\
    pulled_frames env = SdkOk fs0 /\
    maybe_align (aligner s) (align_process env) fs0 = SdkOk fs /\
    alloc_ok env = true /\
    map_ok env = true /\
    fill_buffer fs (map (fresh_byte env) (seq 0 (Z.to_nat (out_framesize s))))
      = Some filled.

(** The width and height are those of a mode of either table (at any
    frame rate): the geometries a started session can deliver, before or
    after alignment. *)
Definition supported_geometry (w h : Z) : bool :=
  existsb (fun m : mode => let '(tw, th, _) := m in (tw =? w) && (th =? h))
          (valid_color_modes ++ valid_depth_modes).

(** The encoding the specification gives for a depth sample. *)
Definition depth_pixel_spec (d : Z) : list Z :=
  if d <? 2560 then [d mod 10; d / 10; d mod 10] else [0; 0; 0].

(** The states of one streaming session: the state [start] left, and what
    [create], [unlock] and [unlock_stop] make of it. *)
Inductive streaming (s1 : GstRealsenseSrc) : GstRealsenseSrc -> Prop :=
| streaming_started : streaming s1 s1
| streaming_create : forall env idx s r,
    streaming s1 s -> gst_realsense_src_create env idx s = Returned r ->
    streaming s1 (res_src r)
| streaming_unlock : forall s,
    streaming s1 s -> streaming s1 (snd (gst_realsense_src_unlock s))
| streaming_unlock_stop : forall s,
    streaming s1 s -> streaming s1 (snd (gst_realsense_src_unlock_stop s)).

(** The property ids of the anonymous enum, without a value. *)
Inductive property_id : Type :=
| ID_ALIGN | ID_COLOR_WIDTH | ID_COLOR_HEIGHT | ID_COLOR_FPS
| ID_DEPTH_WIDTH | ID_DEPTH_HEIGHT | ID_DEPTH_FPS | ID_PRESET_FILE
| ID_OTHER (prop_id : Z).

(** What a [GValue] holds for this element's properties. *)
Inductive GValue : Type :=
| GInt (v : Z)
| GString (v : option string).

(** The integer of an [Align] value, as [g_value_set_int (value, src->align)]
    converts it. *)
Definition align_to_int (a : AlignValue) : Z :=
  match a with
  | AlignOf AlignNone => 0
  | AlignOf AlignColor => 1
  | AlignOf AlignDepth => 2
  | AlignUnknown raw => raw
  end.

(** [gst_realsense_src_get_property]: the value written into [value]
    ([None] when the id is unknown and only the warning is issued). *)
Definition gst_realsense_src_get_property (id : property_id) (s : GstRealsenseSrc)
  : option GValue * list message :=
  match id with
  | ID_ALIGN => (Some (GInt (align_to_int (align s))), [])
  | ID_COLOR_WIDTH => (Some (GInt (color_width s)), [])
  | ID_COLOR_HEIGHT => (Some (GInt (color_height s)), [])
  | ID_COLOR_FPS => (Some (GInt (color_fps s)), [])
  | ID_DEPTH_WIDTH => (Some (GInt (depth_width s)), [])
  | ID_DEPTH_HEIGHT => (Some (GInt (depth_height s)), [])
  | ID_DEPTH_FPS => (Some (GInt (depth_fps s)), [])
  | ID_PRESET_FILE => (Some (GString (preset_file s)), [])
  | ID_OTHER n => (None, [WarnInvalidPropertyId n])
  end.

(** The id and the value a setter call carries. *)
Definition property_id_of (p : property) : property_id :=
  match p with
  | PROP_ALIGN _ => ID_ALIGN
  | PROP_COLOR_WIDTH _ => ID_COLOR_WIDTH
  | PROP_COLOR_HEIGHT _ => ID_COLOR_HEIGHT
  | PROP_COLOR_FPS _ => ID_COLOR_FPS
  | PROP_DEPTH_WIDTH _ => ID_DEPTH_WIDTH
  | PROP_DEPTH_HEIGHT _ => ID_DEPTH_HEIGHT
  | PROP_DEPTH_FPS _ => ID_DEPTH_FPS
  | PROP_PRESET_FILE _ => ID_PRESET_FILE
  | PROP_OTHER n => ID_OTHER n
  end.

Definition property_value (p : property) : option GValue :=
  match p with
  | PROP_ALIGN v | PROP_COLOR_WIDTH v | PROP_COLOR_HEIGHT v | PROP_COLOR_FPS v
  | PROP_DEPTH_WIDTH v | PROP_DEPTH_HEIGHT v | PROP_DEPTH_FPS v => Some (GInt v)
  | PROP_PRESET_FILE v => Some (GString v)
  | PROP_OTHER _ => None
  end.

(** [gst_realsense_src_finalize]: the caps reference is dropped. *)
Definition gst_realsense_src_finalize (s : GstRealsenseSrc) : GstRealsenseSrc :=
  set_caps_field None s.

(** The fields that make up the session, as opposed to the configuration. *)
Definition session_fields (s : GstRealsenseSrc)
  : Z * bool * option VideoCaps * Z * option rs2_pipeline * option Align :=
  (out_framesize s, stop_requested s, caps s, frame_count s, rs_pipeline s, aligner s).

(** The aligner [start] leaves in the element: created for [Color] and
    [Depth], otherwise whatever was there before. *)
Definition aligner_after_start (s : GstRealsenseSrc) : option Align :=
  match align s with
  | AlignOf AlignColor => Some AlignColor
  | AlignOf AlignDepth => Some AlignDepth
  | _ => aligner s
  end.

(** The SDK answers under which [start] gets through: a D435I first in the
    enumeration, the preset step (if configured) without an SDK error,
    [rs_pipeline->start] accepted, a first frame set delivered and
    accepted by the aligner. *)
Definition start_env_ok (env : start_env) (s : GstRealsenseSrc) : Prop :=
  exists dev rest m1 u fs0 fs,
    query_devices env = SdkOk (dev :: rest) /\
    String.eqb (dev_name dev) D435I_NAME = true /\
    load_preset env (set_rs_pipeline (Some (mkPipeline false)) s) dev = SdkOk m1 /\
    pipeline_start env = SdkOk u /\
    first_frames env = SdkOk fs0 /\
    maybe_align (aligner_after_start s) (first_align env) fs0 = SdkOk fs.

(** The color configuration is 1280x720 at 6, 15 or 30 fps. *)
Definition color_locked (s : GstRealsenseSrc) : Prop :=
  color_width s = 1280 /\ color_height s = 720 /\ In (color_fps s) [6; 15; 30].

(** The depth geometry is 640x480, 848x480 or 640x360. *)
Definition depth_geometry_near (s : GstRealsenseSrc) : Prop :=
  In (depth_width s, depth_height s) [(640, 480); (848, 480); (640, 360)].

(** The element as a successful [start] leaves it, [fs] being the first
    (aligned) frame set. *)
Definition started_state (s : GstRealsenseSrc) (fs : frameset) : GstRealsenseSrc :=
  let width := to_guint (frame_width (get_color_frame fs)) in
  let height := to_guint (frame_height (get_color_frame fs) * 2) in
  set_out_framesize (to_guint (GST_VIDEO_INFO_SIZE_RGB width height))
    (set_caps_field (Some (mkVideoCaps width height 30 1))
       (set_rs_pipeline (Some (mkPipeline true))
          (fst (select_aligner (set_rs_pipeline (Some (mkPipeline false)) s))))).

(** A frame set as [create] gets to encode it: an RGB8 color frame of
    width x height pixels whose pixel count fits [int], and a Z16 depth
    frame of 16-bit samples that is not larger than the color frame.  (The
    frame sets of a property-configured session are of this kind: see
    [session_frames_receivable].) *)
Definition receivable_frames (fs : frameset) : Prop :=
  let cframe := get_color_frame fs in
  let depth := get_depth_frame fs in
  0 <= frame_width cframe * frame_height cframe < 2 ^ 31 /\
  length (frame_data cframe)
    = Z.to_nat (frame_width cframe * frame_height cframe * 3) /\
  (length (frame_data depth)
     <= Z.to_nat (frame_width cframe * frame_height cframe))%nat /\
  Forall (fun d => 0 <= d < 65536) (frame_data depth).

(** A frame of the given geometry with [per_pixel] data elements for each
    pixel (3 bytes for RGB8, one sample for Z16). *)
Definition frame_has_geometry (f : video_frame) (w h per_pixel : Z) : Prop :=
  frame_width f = w /\ frame_height f = h /\
  length (frame_data f) = Z.to_nat (w * h * per_pixel).

(** librealsense delivers the streams as [cfg.enable_stream] requested
    them: the color frame in the configured color geometry, the depth
    frame in the configured depth geometry, its samples 16-bit. *)
Definition device_frames (s : GstRealsenseSrc) (fs0 : frameset) : Prop :=
  frame_has_geometry (get_color_frame fs0) (color_width s) (color_height s) 3 /\
  frame_has_geometry (get_depth_frame fs0) (depth_width s) (depth_height s) 1 /\
  Forall (fun d => 0 <= d < 65536) (frame_data (get_depth_frame fs0)).

(** [rs2::align]: the frame of the target stream is passed on as it is,
    the other one is reprojected into the target's geometry. *)
Definition aligned_frames (a : option Align) (fs0 fs : frameset) : Prop :=
  match a with
  | Some AlignColor =>
      get_color_frame fs = get_color_frame fs0 /\
      frame_has_geometry (get_depth_frame fs)
        (frame_width (get_color_frame fs0)) (frame_height (get_color_frame fs0)) 1 /\
      Forall (fun d => 0 <= d < 65536) (frame_data (get_depth_frame fs))
  | Some AlignDepth =>
      get_depth_frame fs = get_depth_frame fs0 /\
      frame_has_geometry (get_color_frame fs)
        (frame_width (get_depth_frame fs0)) (frame_height (get_depth_frame fs0)) 3
  | _ => fs = fs0
  end.

(** C2 read literally: the negotiated height is twice the height of the
    color frame the device reported. *)
Definition caps_from_device_frame : Prop :=
  forall env s0 s msgs fs0,
    gst_realsense_src_start env s0 = Returned (true, s, msgs) ->
    first_frames env = SdkOk fs0 ->
    exists v,
      caps s = Some v /\
      caps_height v = 2 * frame_height (get_color_frame fs0) /\
      out_framesize s = caps_width v * caps_height v * 3.

(** A frame of the given geometry, all data zero. *)
Definition blank_frame (w h per_pixel : Z) : video_frame :=
  mkFrame w h (repeat 0 (Z.to_nat (w * h * per_pixel))).

(** The frame set a D435I delivers in the default configuration (color
    1280x720, depth 640x480), and what [rs2::align] makes of it for either
    target. *)
Definition default_device_frames : frameset :=
  mkFrameset (blank_frame 1280 720 3) (blank_frame 640 480 1).
Definition default_frames_aligned_to_color : frameset :=
  mkFrameset (blank_frame 1280 720 3) (blank_frame 1280 720 1).
Definition default_frames_aligned_to_depth : frameset :=
  mkFrameset (blank_frame 640 480 3) (blank_frame 640 480 1).

(** Fixtures for the examples: 4x1 frames, and the answers of a connected
    D435I whose first frame set is that one. *)
Definition test_frames : frameset :=
  mkFrameset (mkFrame 4 1 [11; 12; 13; 21; 22; 23; 31; 32; 33; 41; 42; 43])
             (mkFrame 4 1 [7; 1234; 2559; 2560]).

Definition d435i_env : start_env :=
  mkStartEnv (SdkOk [mkDevice D435I_NAME "0001" false])
             (SdkOk tt) None (SdkOk tt) (SdkOk tt)
             (SdkOk test_frames) (fun fs => SdkOk fs).

Definition frames_env (fs : frameset) : create_env :=
  mkCreateEnv (SdkOk fs) (fun x => SdkOk x) 5000 1000 true true (fun _ => 255).

(* ===================================================================== *)
(** ** The mode validator and the property setter *)
(* ===================================================================== *)

Section Setter.

Lemma positive_mode_gtb (w h f : Z) :
  positive_mode (w, h, f) -> (w >? 0) && (h >? 0) && (f >? 0) = true.
Proof.
  intros (Hw & Hh & Hf).
  rewrite !andb_true_iff. repeat split; apply Z.gtb_lt; lia.
Qed.

Lemma validate_color_mode_invalid (s : GstRealsenseSrc) :
  positive_mode (color_mode s) ->
  mode_in valid_color_modes (color_mode s) = false ->
  validate_color_mode s =
    (set_color_fps 30 (set_color_height 720 (set_color_width 1280 s)),
     [WarnInvalidColorMode (color_width s) (color_height s) (color_fps s)]).
Proof.
  unfold color_mode, mode_in, validate_color_mode. intros Hpos Hin.
  rewrite (positive_mode_gtb _ _ _ Hpos), Hin. reflexivity.
Qed.

Lemma validate_depth_mode_invalid (s : GstRealsenseSrc) :
  positive_mode (depth_mode s) ->
  mode_in valid_depth_modes (depth_mode s) = false ->
  validate_depth_mode s =
    (set_depth_fps 30 (set_depth_height 480 (set_depth_width 640 s)),
     [WarnInvalidDepthMode (depth_width s) (depth_height s) (depth_fps s)]).
Proof.
  unfold depth_mode, mode_in, validate_depth_mode. intros Hpos Hin.
  rewrite (positive_mode_gtb _ _ _ Hpos), Hin. reflexivity.
Qed.

Lemma validate_color_mode_depth (s : GstRealsenseSrc) :
  depth_mode (fst (validate_color_mode s)) = depth_mode s.
Proof.
  unfold validate_color_mode.
  destruct (_ && _); [destruct (negb _)|]; reflexivity.
Qed.

Lemma validate_depth_mode_color (s : GstRealsenseSrc) :
  color_mode (fst (validate_depth_mode s)) = color_mode s.
Proof.
  unfold validate_depth_mode.
  destruct (_ && _); [destruct (negb _)|]; reflexivity.
Qed.

(** The setter, as the composition of its three blocks. *)
Lemma set_property_unfold (p : property) (s : GstRealsenseSrc) :
  gst_realsense_src_set_property p s =
    let a := assign_property p s in
    let c := validate_color_mode (fst a) in
    let d := validate_depth_mode (fst c) in
    (fst d, snd a ++ snd c ++ snd d).
Proof.
  unfold gst_realsense_src_set_property.
  destruct (assign_property p s) as [s1 m1]; simpl.
  destruct (validate_color_mode s1) as [s2 m2]; simpl.
  destruct (validate_depth_mode s2) as [s3 m3]; reflexivity.
Qed.

(** A stream whose assigned triple is positive and absent from its table
    ends at the fallback, with the warning posted. *)
Lemma set_property_fallback (k : stream_kind) (p : property) (s : GstRealsenseSrc) :
  positive_mode (stream_mode k (fst (assign_property p s))) ->
  mode_in (stream_table k) (stream_mode k (fst (assign_property p s))) = false ->
  stream_mode k (fst (gst_realsense_src_set_property p s)) = fallback_mode k /\
  In (invalid_mode_warning k (stream_mode k (fst (assign_property p s))))
     (snd (gst_realsense_src_set_property p s)).
Proof.
  intros Hpos Hin. rewrite set_property_unfold. cbv zeta.
  destruct (assign_property p s) as [s1 m1]; cbn [fst snd] in *.
  destruct k; cbn [stream_mode stream_table fallback_mode] in *.
  - rewrite validate_depth_mode_color.
    rewrite (validate_color_mode_invalid s1 Hpos Hin). cbn [fst snd].
    split; [reflexivity|].
    apply in_or_app; right. apply in_or_app; left. left. reflexivity.
  - pose proof (validate_color_mode_depth s1) as Hd.
    destruct (validate_color_mode s1) as [s2 m2]; cbn [fst snd] in *.
    rewrite <- Hd in Hpos, Hin.
    rewrite (validate_depth_mode_invalid s2 Hpos Hin). cbn [fst snd].
    split; [reflexivity|].
    apply in_or_app; right. apply in_or_app; right.
    rewrite <- Hd. left. reflexivity.
Qed.

End Setter.

(** C8. Whenever a property change leaves a stream's stored
    (width, height, fps) triple with three positive values and absent from
    that stream's mode table, the setter posts the invalid-mode warning and
    the stream's configuration ends at the fixed fallback (1280x720x30 for
    color, 640x480x30 for depth); a further change that stores the same
    invalid triple again ends at the same fallback. *)
Theorem set_property_invalid_mode_reset
  (k : stream_kind) (p p' : property) (s : GstRealsenseSrc) :
  positive_mode (stream_mode k (fst (assign_property p s))) ->
  mode_in (stream_table k) (stream_mode k (fst (assign_property p s))) = false ->
  let r := gst_realsense_src_set_property p s in
  stream_mode k (fst r) = fallback_mode k /\
  In (invalid_mode_warning k (stream_mode k (fst (assign_property p s)))) (snd r) /\
  (stream_mode k (fst (assign_property p' (fst r)))
     = stream_mode k (fst (assign_property p s)) ->
   stream_mode k (fst (gst_realsense_src_set_property p' (fst r))) = fallback_mode k /\
   In (invalid_mode_warning k (stream_mode k (fst (assign_property p s))))
      (snd (gst_realsense_src_set_property p' (fst r)))).
Proof.
  intros Hpos Hin r.
  destruct (set_property_fallback k p s Hpos Hin) as [Hfb Hw].
  split; [exact Hfb|]. split; [exact Hw|].
  intros Hsame. rewrite <- Hsame in Hpos, Hin |- *.
  exact (set_property_fallback k p' (fst r) Hpos Hin).
Qed.

Lemma set_property_invalid_mode_reset_witness :
  stream_mode ColorStream
    (fst (gst_realsense_src_set_property (PROP_COLOR_WIDTH 999) init_fields))
    = (1280, 720, 30) /\
  stream_mode DepthStream
    (fst (gst_realsense_src_set_property (PROP_DEPTH_FPS 7) init_fields))
    = (640, 480, 30).
Proof.
  split.
  - refine (proj1 (set_property_invalid_mode_reset ColorStream
                     (PROP_COLOR_WIDTH 999) (PROP_COLOR_WIDTH 999) init_fields _ _)).
    + simpl. lia.
    + reflexivity.
  - refine (proj1 (set_property_invalid_mode_reset DepthStream
                     (PROP_DEPTH_FPS 7) (PROP_DEPTH_FPS 7) init_fields _ _)).
    + simpl. lia.
    + reflexivity.
Defined.

(* ===================================================================== *)
(** ** The configuration invariant *)
(* ===================================================================== *)

Section ConfigurationInvariant.

Lemma is_valid_mode_In (modes : list mode) (w h f : Z) :
  is_valid_mode modes w h f = true <-> In (w, h, f) modes.
Proof.
  induction modes as [|[[tw th] tf] rest IH]; simpl.
  - split; [discriminate | tauto].
  - destruct ((tw =? w) && (th =? h) && (tf =? f)) eqn:E.
    + apply andb_true_iff in E as [E Ef]. apply andb_true_iff in E as [Ew Eh].
      apply Z.eqb_eq in Ew, Eh, Ef. subst. tauto.
    + rewrite IH. split; [tauto|]. intros [Heq|Hin]; [|exact Hin].
      inversion Heq; subst. rewrite !Z.eqb_refl in E. discriminate.
Qed.

Lemma valid_color_modes_positive :
  Forall positive_mode valid_color_modes.
Proof. unfold valid_color_modes. repeat constructor; lia. Qed.

Lemma valid_depth_modes_positive :
  Forall positive_mode valid_depth_modes.
Proof. unfold valid_depth_modes. repeat constructor; lia. Qed.

Lemma mode_in_positive (k : stream_kind) (m : mode) :
  mode_in (stream_table k) m = true -> positive_mode m.
Proof.
  destruct m as [[w h] f]. unfold mode_in. rewrite is_valid_mode_In. intros Hin.
  assert (HF : Forall positive_mode (stream_table k))
    by (destruct k; [apply valid_color_modes_positive | apply valid_depth_modes_positive]).
  rewrite Forall_forall in HF. exact (HF _ Hin).
Qed.

(** After its block has run, a positive triple is in its table. *)
Lemma validate_color_mode_valid (s : GstRealsenseSrc) :
  positive_mode (color_mode s) ->
  mode_in valid_color_modes (color_mode (fst (validate_color_mode s))) = true.
Proof.
  intros Hpos. unfold validate_color_mode.
  rewrite (positive_mode_gtb _ _ _ Hpos).
  destruct (is_valid_mode valid_color_modes _ _ _) eqn:E; simpl.
  - exact E.
  - reflexivity.
Qed.

Lemma validate_depth_mode_valid (s : GstRealsenseSrc) :
  positive_mode (depth_mode s) ->
  mode_in valid_depth_modes (depth_mode (fst (validate_depth_mode s))) = true.
Proof.
  intros Hpos. unfold validate_depth_mode.
  rewrite (positive_mode_gtb _ _ _ Hpos).
  destruct (is_valid_mode valid_depth_modes _ _ _) eqn:E; simpl.
  - exact E.
  - reflexivity.
Qed.

(** The switch keeps positive triples positive when the value is in the
    property's range. *)
Lemma assign_property_positive (k : stream_kind) (p : property) (s : GstRealsenseSrc) :
  property_in_range p = true ->
  positive_mode (stream_mode k s) ->
  positive_mode (stream_mode k (fst (assign_property p s))).
Proof.
  intros Hr Hpos.
  destruct k, p; simpl in *; try exact Hpos;
    apply andb_true_iff in Hr as [Hlo _]; apply Z.leb_le in Hlo; lia.
Qed.

Lemma set_property_modes_valid (p : property) (s : GstRealsenseSrc) :
  property_in_range p = true ->
  modes_valid s ->
  modes_valid (fst (gst_realsense_src_set_property p s)).
Proof.
  intros Hr [Hc Hd].
  pose proof (assign_property_positive ColorStream p s Hr
                (mode_in_positive ColorStream _ Hc)) as Pc.
  pose proof (assign_property_positive DepthStream p s Hr
                (mode_in_positive DepthStream _ Hd)) as Pd.
  cbn [stream_mode] in Pc, Pd.
  rewrite set_property_unfold. cbv zeta. cbn [fst].
  set (s1 := fst (assign_property p s)) in *.
  pose proof (validate_color_mode_valid s1 Pc) as Vc.
  rewrite <- (validate_color_mode_depth s1) in Pd.
  set (s2 := fst (validate_color_mode s1)) in *.
  split.
  - rewrite validate_depth_mode_color. exact Vc.
  - apply validate_depth_mode_valid. exact Pd.
Qed.

Lemma init_returns : gst_realsense_src_init = Returned init_fields.
Proof. reflexivity. Qed.

Lemma configured_modes_valid (s : GstRealsenseSrc) :
  configured s -> modes_valid s.
Proof.
  induction 1 as [s Hinit | s p _ IH Hr].
  - rewrite init_returns in Hinit. inversion Hinit; subst. split; reflexivity.
  - apply set_property_modes_valid; assumption.
Qed.

Lemma start_after_validation (env : start_env) (s : GstRealsenseSrc) :
  modes_valid s -> gst_realsense_src_start env s = start_session env s.
Proof.
  intros [Hc Hd]. unfold gst_realsense_src_start.
  unfold mode_in, color_mode in Hc. unfold mode_in, depth_mode in Hd.
  rewrite Hc, Hd. reflexivity.
Qed.

Lemma start_color_invalid (env : start_env) (s : GstRealsenseSrc) :
  is_valid_mode valid_color_modes (color_width s) (color_height s) (color_fps s) = false ->
  gst_realsense_src_start env s =
    Returned (false, s, [ErrInvalidColorMode (color_width s) (color_height s) (color_fps s)]).
Proof. intros H. unfold gst_realsense_src_start. rewrite H. reflexivity. Qed.

Lemma start_depth_invalid (env : start_env) (s : GstRealsenseSrc) :
  is_valid_mode valid_color_modes (color_width s) (color_height s) (color_fps s) = true ->
  is_valid_mode valid_depth_modes (depth_width s) (depth_height s) (depth_fps s) = false ->
  gst_realsense_src_start env s =
    Returned (false, s, [ErrInvalidDepthMode (depth_width s) (depth_height s) (depth_fps s)]).
Proof. intros Hc H. unfold gst_realsense_src_start. rewrite Hc, H. reflexivity. Qed.

(** Past the two mode checks, [start] posts no invalid-mode error. *)
Lemma start_session_no_mode_error env s ok s' msgs :
  start_session env s = Returned (ok, s', msgs) ->
  Forall (fun m => mode_error m = false) msgs.
Proof.
  unfold start_session. intros H.
  destruct (query_devices env) as [[|dev rest]|f].
  - inversion H. repeat constructor.
  - destruct (String.eqb (dev_name dev) D435I_NAME).
    + destruct (load_preset env _ dev) as [m1|f] eqn:El.
      * assert (F1 : Forall (fun m => mode_error m = false) m1).
        { unfold load_preset in El.
          destruct (preset_file _) as [path|]; [destruct (negb (path =? ""))%string|].
          - destruct (if negb (dev_advanced_enabled dev)
                      then toggle_advanced_mode env else SdkOk tt); [|discriminate].
            destruct (open_preset env); [destruct (load_json env)|];
              inversion El; repeat constructor.
          - inversion El. constructor.
          - inversion El. constructor. }
        assert (F2 : Forall (fun m => mode_error m = false)
                       (snd (select_aligner
                               (set_rs_pipeline (Some (mkPipeline false)) s)))).
        { unfold select_aligner. destruct (align _) as [[]|raw]; repeat constructor. }
        destruct (select_aligner _) as [s2 m2]. cbn [snd] in F2.
        destruct (pipeline_start env) as [u|f].
        -- destruct (gst_realsense_src_calculate_caps env _)
             as [[[ok4 s4] m3]| |] eqn:Ecaps; try discriminate.
           assert (F3 : Forall (fun m => mode_error m = false) m3).
           { unfold gst_realsense_src_calculate_caps in Ecaps.
             destruct (rs_pipeline _) as [p|]; [|discriminate].
             destruct (rs2_wait_for_frames p (first_frames env)) as [fs0|f];
               [destruct (maybe_align _ (first_align env) fs0)|];
               inversion Ecaps; repeat constructor. }
           inversion H; subst. rewrite !Forall_app. auto.
        -- inversion H; subst. rewrite !Forall_app.
           repeat split; try assumption. repeat constructor.
      * inversion H. repeat constructor.
    + inversion H. repeat constructor.
  - inversion H. repeat constructor.
Qed.

End ConfigurationInvariant.

(** C9. After element initialisation and after every property change
    whose value lies in the property's declared range, the stored color
    triple is a member of the color mode table and the stored depth triple
    a member of the depth mode table; so neither mode check of [start]
    fails for such a configuration: [start] proceeds to open the session,
    and whatever it returns, it has posted neither invalid-mode error. *)
Theorem configured_modes_in_tables (s : GstRealsenseSrc) :
  configured s ->
  is_valid_mode valid_color_modes (color_width s) (color_height s) (color_fps s) = true /\
  is_valid_mode valid_depth_modes (depth_width s) (depth_height s) (depth_fps s) = true /\
  forall env,
    gst_realsense_src_start env s = start_session env s /\
    forall ok s' msgs,
      gst_realsense_src_start env s = Returned (ok, s', msgs) ->
      Forall (fun m => mode_error m = false) msgs.
Proof.
  intros H. pose proof (configured_modes_valid s H) as Hv.
  destruct Hv as [Hc Hd].
  split; [exact Hc|]. split; [exact Hd|].
  intros env.
  assert (E : gst_realsense_src_start env s = start_session env s)
    by (apply start_after_validation; split; [exact Hc | exact Hd]).
  split; [exact E|].
  intros ok s' msgs Hs. rewrite E in Hs.
  eapply start_session_no_mode_error. exact Hs.
Qed.

Lemma configured_modes_in_tables_witness :
  let s := fst (gst_realsense_src_set_property (PROP_COLOR_HEIGHT 1080)
             (fst (gst_realsense_src_set_property (PROP_COLOR_WIDTH 1920) init_fields))) in
  is_valid_mode valid_color_modes (color_width s) (color_height s) (color_fps s) = true /\
  is_valid_mode valid_depth_modes (depth_width s) (depth_height s) (depth_fps s) = true /\
  forall env,
    gst_realsense_src_start env s = start_session env s /\
    forall ok s' msgs,
      gst_realsense_src_start env s = Returned (ok, s', msgs) ->
      Forall (fun m => mode_error m = false) msgs.
Proof.
  apply configured_modes_in_tables.
  apply configured_set; [apply configured_set|]; try reflexivity.
  apply configured_init. reflexivity.
Defined.

(* ===================================================================== *)
(** ** start: the device check *)
(* ===================================================================== *)

Section DeviceCheck.

Lemma load_preset_messages env s dev m :
  load_preset env s dev = SdkOk m ->
  ~ In ErrNotD435i m.
Proof.
  unfold load_preset. intros H Hin.
  destruct (preset_file s) as [path|]; [destruct (negb (path =? ""))%string|].
  - destruct (if negb (dev_advanced_enabled dev) then toggle_advanced_mode env else SdkOk tt);
      [|discriminate].
    destruct (open_preset env); [destruct (load_json env)|]; inversion H; subst;
      simpl in Hin; intuition discriminate.
  - inversion H; subst. exact Hin.
  - inversion H; subst. exact Hin.
Qed.

Lemma select_aligner_messages s :
  ~ In ErrNotD435i (snd (select_aligner s)).
Proof.
  unfold select_aligner. destruct (align s) as [[]|raw]; simpl; intuition discriminate.
Qed.

Lemma calculate_caps_messages env s ok s' m :
  gst_realsense_src_calculate_caps env s = Returned (ok, s', m) ->
  ~ In ErrNotD435i m.
Proof.
  unfold gst_realsense_src_calculate_caps. intros H Hin.
  destruct (rs_pipeline s) as [p|]; [|discriminate].
  destruct (rs2_wait_for_frames p (first_frames env)) as [fs0|f].
  - destruct (maybe_align (aligner s) (first_align env) fs0) as [fs|f];
      inversion H; subst; simpl in Hin; intuition discriminate.
  - inversion H; subst; simpl in Hin; intuition discriminate.
Qed.

(** Without a configured preset the preset block makes no SDK call and
    posts nothing. *)
Lemma load_preset_unconfigured env s dev :
  preset_configured s = false -> load_preset env s dev = SdkOk [].
Proof.
  unfold preset_configured, load_preset.
  destruct (preset_file s) as [path|]; [|reflexivity].
  intros ->. reflexivity.
Qed.

Lemma start_session_not_d435i env s ok s' msgs :
  start_session env s = Returned (ok, s', msgs) ->
  In ErrNotD435i msgs ->
  exists dev rest, query_devices env = SdkOk (dev :: rest) /\
                   String.eqb (dev_name dev) D435I_NAME = false.
Proof.
  unfold start_session. intros H Hin.
  destruct (query_devices env) as [[|dev rest]|f].
  - inversion H; subst. simpl in Hin. intuition discriminate.
  - destruct (String.eqb (dev_name dev) D435I_NAME) eqn:En.
    + exfalso.
      destruct (load_preset env _ dev) as [m1|f] eqn:El.
      * pose proof (load_preset_messages _ _ _ _ El) as N1.
        pose proof (select_aligner_messages
                      (set_rs_pipeline (Some (mkPipeline false)) s)) as N2.
        destruct (select_aligner _) as [s2 m2]. cbn [snd] in N2.
        destruct (pipeline_start env) as [u|f].
        -- destruct (gst_realsense_src_calculate_caps env _)
             as [[[ok4 s4] m3]| |] eqn:Ec; try discriminate.
           pose proof (calculate_caps_messages _ _ _ _ _ Ec) as N3.
           inversion H; subst.
           apply in_app_or in Hin as [Hin|Hin]; [tauto|].
           apply in_app_or in Hin as [Hin|Hin]; tauto.
        -- inversion H; subst.
           apply in_app_or in Hin as [Hin|Hin]; [tauto|].
           apply in_app_or in Hin as [Hin|Hin]; [tauto|].
           simpl in Hin. intuition discriminate.
      * inversion H; subst. simpl in Hin. intuition discriminate.
    + exists dev, rest. split; [reflexivity | exact En].
  - inversion H; subst. simpl in Hin. intuition discriminate.
Qed.

End DeviceCheck.

(** C4 as stated fails: with no preset path set and a connected
    "Intel RealSense D415", [start] returns FALSE with the
    "not an Intel RealSense D435i" error. *)
Lemma start_rejects_d415_without_preset :
  ~ unsupported_device_only_with_preset.
Proof.
  intros claim.
  pose (env := mkStartEnv
                 (SdkOk [mkDevice "Intel RealSense D415" "0001" false])
                 (SdkOk tt) None (SdkOk tt) (SdkOk tt)
                 (SdkThrows "unused") (fun fs => SdkOk fs)).
  specialize (claim env init_fields false
                (set_rs_pipeline (Some (mkPipeline false)) init_fields)
                [ErrNotD435i] eq_refl (or_introl eq_refl)).
  discriminate claim.
Qed.

(** C4, amended. [start] rejects the device (UnsupportedDevice) exactly
    when both stored modes are valid, a device is enumerated and the first
    device's name is not "Intel RealSense D435I" -- whether or not a preset
    is configured; and when no preset is configured (path absent or empty)
    the preset step of a D435I start touches neither the device nor the
    message log. *)
Theorem start_rejects_every_other_device (env : start_env) (s : GstRealsenseSrc) :
  ((exists ok s' msgs,
       gst_realsense_src_start env s = Returned (ok, s', msgs) /\ In ErrNotD435i msgs)
   <->
   (modes_valid s /\
    exists dev rest, query_devices env = SdkOk (dev :: rest) /\
                     String.eqb (dev_name dev) D435I_NAME = false)) /\
  (preset_configured s = false ->
   forall dev, load_preset env (set_rs_pipeline (Some (mkPipeline false)) s) dev = SdkOk []).
Proof.
  split.
  - split.
    + intros (ok & s' & msgs & H & Hin).
      destruct (is_valid_mode valid_color_modes
                  (color_width s) (color_height s) (color_fps s)) eqn:Ec.
      2:{ rewrite (start_color_invalid env s Ec) in H.
          inversion H; subst. destruct Hin as [Hin|[]]. discriminate Hin. }
      destruct (is_valid_mode valid_depth_modes
                  (depth_width s) (depth_height s) (depth_fps s)) eqn:Ed.
      2:{ rewrite (start_depth_invalid env s Ec Ed) in H.
          inversion H; subst. destruct Hin as [Hin|[]]. discriminate Hin. }
      assert (Hv : modes_valid s) by (split; [exact Ec | exact Ed]).
      rewrite (start_after_validation env s Hv) in H.
      split; [exact Hv|].
      eapply start_session_not_d435i; eassumption.
    + intros (Hv & dev & rest & Hq & Hn).
      rewrite (start_after_validation env s Hv).
      unfold start_session. rewrite Hq, Hn.
      eexists _, _, _. split; [reflexivity|]. left. reflexivity.
  - intros Hp dev. apply load_preset_unconfigured. exact Hp.
Qed.

(* ===================================================================== *)
(** ** start: what a TRUE return implies *)
(* ===================================================================== *)

Section StartSuccess.

(** The format [calculate_caps] publishes for a color frame. *)
Lemma calculate_caps_true_inv env s s' m p :
  rs_pipeline s = Some p -> pipeline_running p = true ->
  gst_realsense_src_calculate_caps env s = Returned (true, s', m) ->
  exists fs0 fs,
    first_frames env = SdkOk fs0 /\
    maybe_align (aligner s) (first_align env) fs0 = SdkOk fs /\
    let width := to_guint (frame_width (get_color_frame fs)) in
    let height := to_guint (frame_height (get_color_frame fs) * 2) in
    s' = set_out_framesize (to_guint (GST_VIDEO_INFO_SIZE_RGB width height))
           (set_caps_field (Some (mkVideoCaps width height 30 1)) s).
Proof.
  intros Hp Hrun H. unfold gst_realsense_src_calculate_caps in H.
  rewrite Hp in H. unfold rs2_wait_for_frames in H. rewrite Hrun in H.
  destruct (first_frames env) as [fs0|f]; [|discriminate].
  destruct (maybe_align (aligner s) (first_align env) fs0) as [fs|f] eqn:Ea;
    [|discriminate].
  exists fs0, fs. split; [reflexivity|]. split; [exact Ea|].
  inversion H. reflexivity.
Qed.

Lemma select_aligner_fields s :
  rs_pipeline (fst (select_aligner s)) = rs_pipeline s /\
  out_framesize (fst (select_aligner s)) = out_framesize s /\
  stop_requested (fst (select_aligner s)) = stop_requested s.
Proof.
  unfold select_aligner. destruct (align s) as [[]|raw]; simpl; auto.
Qed.

(** A TRUE return of [start]: the session was opened, acquisition runs,
    and the format was computed from the first (aligned) frame set. *)
Lemma start_true_inv env s0 s msgs :
  gst_realsense_src_start env s0 = Returned (true, s, msgs) ->
  rs_pipeline s = Some (mkPipeline true) /\
  exists fs0 fs,
    first_frames env = SdkOk fs0 /\
    maybe_align (aligner s) (first_align env) fs0 = SdkOk fs /\
    let width := to_guint (frame_width (get_color_frame fs)) in
    let height := to_guint (frame_height (get_color_frame fs) * 2) in
    caps s = Some (mkVideoCaps width height 30 1) /\
    out_framesize s = to_guint (GST_VIDEO_INFO_SIZE_RGB width height).
Proof.
  intros H.
  destruct (is_valid_mode valid_color_modes
              (color_width s0) (color_height s0) (color_fps s0)) eqn:Ec.
  2:{ rewrite (start_color_invalid env s0 Ec) in H. discriminate. }
  destruct (is_valid_mode valid_depth_modes
              (depth_width s0) (depth_height s0) (depth_fps s0)) eqn:Ed.
  2:{ rewrite (start_depth_invalid env s0 Ec Ed) in H. discriminate. }
  rewrite (start_after_validation env s0 (conj Ec Ed)) in H.
  unfold start_session in H.
  destruct (query_devices env) as [[|dev rest]|f]; try discriminate.
  destruct (String.eqb (dev_name dev) D435I_NAME); [|discriminate].
  destruct (load_preset env _ dev) as [m1|f]; [|discriminate].
  destruct (select_aligner _) as [s2 m2].
  destruct (pipeline_start env) as [u|f]; [|discriminate].
  destruct (gst_realsense_src_calculate_caps env _) as [[[ok4 s4] m3]| |] eqn:Ecaps;
    try discriminate.
  inversion H; subst ok4 s4 msgs.
  apply (calculate_caps_true_inv env
           (set_rs_pipeline (Some (mkPipeline true)) s2) s m3
           (mkPipeline true) eq_refl eq_refl) in Ecaps.
  destruct Ecaps as (fs0 & fs & Hf & Ha & Hs). cbv zeta in Hs.
  subst s. split; [reflexivity|].
  exists fs0, fs. split; [exact Hf|]. split; [exact Ha|].
  split; reflexivity.
Qed.

End StartSuccess.

(* ===================================================================== *)
(** ** stop and get_caps around a session *)
(* ===================================================================== *)

Section StopAndCaps.

(** [stop] on an element whose session handle was never created changes
    no SDK state and returns TRUE. *)
Lemma stop_never_started s :
  rs_pipeline s = None ->
  gst_realsense_src_stop s =
    Returned (true, set_caps_field None (set_frame_count 0 (set_out_framesize 0 s))).
Proof.
  intros H. unfold gst_realsense_src_stop, gst_realsense_src_reset.
  rewrite H. reflexivity.
Qed.

Lemma stop_twice_never_started s :
  rs_pipeline s = None ->
  exists s1, gst_realsense_src_stop s = Returned (true, s1) /\
             gst_realsense_src_stop s1 = Returned (true, s1).
Proof.
  intros H. eexists. split; [apply stop_never_started; exact H|].
  rewrite stop_never_started by exact H. reflexivity.
Qed.

(** [stop] on a running session stops the pipeline and keeps the handle. *)
Lemma stop_running s :
  rs_pipeline s = Some (mkPipeline true) ->
  gst_realsense_src_stop s =
    Returned (true, set_caps_field None (set_frame_count 0 (set_out_framesize 0
                      (set_rs_pipeline (Some (mkPipeline false)) s)))).
Proof.
  intros H. unfold gst_realsense_src_stop, gst_realsense_src_reset.
  rewrite H. reflexivity.
Qed.


(** C6. On the call sequence start (successful), stop, stop: the first
    [stop] returns TRUE and leaves the session handle in place, pointing at
    the now stopped pipeline; the second [stop] therefore calls
    [rs_pipeline->stop()] again, librealsense raises [rs2::error], and the
    exception leaves [stop] -- the second stop does not complete. *)
Theorem second_stop_raises (env : start_env) (s0 s : GstRealsenseSrc) (msgs : list message) :
  gst_realsense_src_start env s0 = Returned (true, s, msgs) ->
  exists s1,
    gst_realsense_src_stop s = Returned (true, s1) /\
    rs_pipeline s1 = Some (mkPipeline false) /\
    gst_realsense_src_stop s1 = Uncaught (rs2_error "rs2_pipeline_stop").
Proof.
  intros H. apply start_true_inv in H as [Hp _].
  eexists. split; [apply stop_running; exact Hp|].
  split; reflexivity.
Qed.

Lemma second_stop_raises_witness :
  exists s1,
    gst_realsense_src_stop
      (set_out_framesize 24
         (set_caps_field (Some (mkVideoCaps 4 2 30 1))
            (set_rs_pipeline (Some (mkPipeline true))
               (set_aligner (Some AlignColor) init_fields))))
      = Returned (true, s1) /\
    rs_pipeline s1 = Some (mkPipeline false) /\
    gst_realsense_src_stop s1 = Uncaught (rs2_error "rs2_pipeline_stop").
Proof.
  apply (second_stop_raises d435i_env init_fields _ []).
  reflexivity.
Defined.

(** C10. After a successful start followed by stop, the session handle
    is still set while [caps] is NULL: [get_caps] takes the copy branch,
    copies the null pointer and returns NULL, with or without a filter.
    (Before the stop it returns a copy of the negotiated caps.) *)
Theorem get_caps_after_stop_is_null
  (env : start_env) (s0 s : GstRealsenseSrc) (msgs : list message)
  (filter : option GstCaps) :
  gst_realsense_src_start env s0 = Returned (true, s, msgs) ->
  (exists v, caps s = Some v /\
             gst_realsense_src_get_caps s None = Some (VideoInfoCaps v)) /\
  exists s1,
    gst_realsense_src_stop s = Returned (true, s1) /\
    rs_pipeline s1 <> None /\ caps s1 = None /\
    gst_realsense_src_get_caps s1 filter = None.
Proof.
  intros H. apply start_true_inv in H as [Hp (fs0 & fs & _ & _ & Hc & _)].
  split.
  - eexists. split; [exact Hc|].
    unfold gst_realsense_src_get_caps. rewrite Hp, Hc. reflexivity.
  - eexists. split; [apply stop_running; exact Hp|].
    split; [discriminate|]. split; [reflexivity|].
    unfold gst_realsense_src_get_caps. simpl. destruct filter; reflexivity.
Qed.

Lemma get_caps_after_stop_is_null_witness :
  exists s1,
    gst_realsense_src_stop
      (set_out_framesize 24
         (set_caps_field (Some (mkVideoCaps 4 2 30 1))
            (set_rs_pipeline (Some (mkPipeline true))
               (set_aligner (Some AlignColor) init_fields))))
      = Returned (true, s1) /\
    rs_pipeline s1 <> None /\ caps s1 = None /\
    gst_realsense_src_get_caps s1 None = None.
Proof.
  refine (proj2 (get_caps_after_stop_is_null d435i_env init_fields _ [] None _)).
  reflexivity.
Defined.

End StopAndCaps.

(* ===================================================================== *)
(** ** start: failure after acquisition has begun *)
(* ===================================================================== *)

(** C3. When the device is a D435I, [rs_pipeline->start] succeeds and the
    first [wait_for_frames] of the caps calculation raises [rs2::error],
    [start] returns FALSE with the caps-calculation error posted, yet the
    pipeline it started is still running: a later [wait_for_frames] on it
    delivers whatever frame set the device produces. *)
Theorem start_caps_failure_leaves_pipeline_running
  (env : start_env) (s : GstRealsenseSrc) (dev : rs2_device)
  (rest : list rs2_device) (f : string) :
  modes_valid s ->
  preset_configured s = false ->
  query_devices env = SdkOk (dev :: rest) ->
  String.eqb (dev_name dev) D435I_NAME = true ->
  pipeline_start env = SdkOk tt ->
  first_frames env = SdkThrows f ->
  exists s' msgs p,
    gst_realsense_src_start env s = Returned (false, s', msgs) /\
    In (ErrCapsCalculation f) msgs /\
    rs_pipeline s' = Some p /\ pipeline_running p = true /\
    forall fs, rs2_wait_for_frames p (SdkOk fs) = SdkOk fs.
Proof.
  intros Hv Hp Hq Hn Hs Hf.
  rewrite (start_after_validation env s Hv). unfold start_session.
  rewrite Hq, Hn, (load_preset_unconfigured env _ dev) by exact Hp.
  pose proof (select_aligner_fields (set_rs_pipeline (Some (mkPipeline false)) s))
    as (Hrp & _).
  destruct (select_aligner _) as [s2 m2]. cbn [fst] in Hrp.
  rewrite Hs. unfold gst_realsense_src_calculate_caps.
  cbn [rs_pipeline set_rs_pipeline]. unfold rs2_wait_for_frames at 1.
  cbn [pipeline_running]. rewrite Hf.
  eexists _, _, (mkPipeline true). split; [reflexivity|].
  split; [apply in_or_app; right; apply in_or_app; right; left; reflexivity|].
  split; [reflexivity|]. split; [reflexivity|].
  intros fs. reflexivity.
Qed.

Lemma start_caps_failure_leaves_pipeline_running_witness :
  exists s' msgs p,
    gst_realsense_src_start
      (mkStartEnv (SdkOk [mkDevice D435I_NAME "0001" true])
                  (SdkOk tt) None (SdkOk tt) (SdkOk tt)
                  (SdkThrows "rs2_pipeline_wait_for_frames") (fun fs => SdkOk fs))
      init_fields = Returned (false, s', msgs) /\
    In (ErrCapsCalculation "rs2_pipeline_wait_for_frames") msgs /\
    rs_pipeline s' = Some p /\ pipeline_running p = true /\
    forall fs, rs2_wait_for_frames p (SdkOk fs) = SdkOk fs.
Proof.
  apply (start_caps_failure_leaves_pipeline_running _ init_fields
           (mkDevice D435I_NAME "0001" true) []); try reflexivity.
  split; reflexivity.
Defined.

(* ===================================================================== *)
(** ** create: flow returns *)
(* ===================================================================== *)

Section CreateFlow.

(** A call that runs to its final [return] delivers the filled buffer; the
    flow return is decided by [stop_requested] alone. *)
Lemma create_completes_returns env idx s fs filled :
  create_completes env s fs filled ->
  gst_realsense_src_create env idx s =
    Returned (mkCreateResult
                (if stop_requested s then GST_FLOW_FLUSHING else GST_FLOW_OK)
                (Some (mkBuffer filled
                         (to_guint64 (clock_time env - base_time env))
                         (to_guint64 (clock_time env - base_time env))
                         (to_guint64 idx)))
                (set_frame_count (to_guint64 (frame_count s + 1)) s)
                (to_gint (idx + 1)) []).
Proof.
  intros (fs0 & Hp & Hpull & Halign & Halloc & Hmap & Hfill).
  unfold gst_realsense_src_create.
  rewrite Hp. unfold rs2_wait_for_frames. cbn [pipeline_running].
  rewrite Hpull, Halign, Halloc, Hmap. cbn [negb]. rewrite Hfill. reflexivity.
Qed.

(** Whether a call completes does not depend on the cancellation flag or
    on the frame counter. *)
Lemma create_completes_same_session env s s' fs filled :
  rs_pipeline s' = rs_pipeline s -> aligner s' = aligner s ->
  out_framesize s' = out_framesize s ->
  create_completes env s fs filled -> create_completes env s' fs filled.
Proof.
  intros Hp Ha Ho (fs0 & H). exists fs0. rewrite Hp, Ha, Ho. exact H.
Qed.

End CreateFlow.

(** C5. When [gst_buffer_new_and_alloc] fails in a call of [create]
    whose frame set was pulled (and aligned) without error, the call does
    not return at all: the [std::runtime_error] it throws is not an
    [rs2::error], passes the handler and leaves [create]; no
    [GST_FLOW_ERROR] is returned. *)
Theorem create_allocation_failure_escapes
  (env : create_env) (idx : Z) (s : GstRealsenseSrc) (fs0 fs : frameset) :
  rs_pipeline s = Some (mkPipeline true) ->
  pulled_frames env = SdkOk fs0 ->
  maybe_align (aligner s) (align_process env) fs0 = SdkOk fs ->
  alloc_ok env = false ->
  gst_realsense_src_create env idx s
    = Uncaught (std_runtime_error "failed to allocate buffer") /\
  forall r, gst_realsense_src_create env idx s <> Returned r.
Proof.
  intros Hp Hpull Halign Halloc.
  assert (E : gst_realsense_src_create env idx s
              = Uncaught (std_runtime_error "failed to allocate buffer")).
  { unfold gst_realsense_src_create.
    rewrite Hp. unfold rs2_wait_for_frames. cbn [pipeline_running].
    rewrite Hpull, Halign, Halloc. reflexivity. }
  split; [exact E|]. intros r. rewrite E. discriminate.
Qed.

Lemma create_allocation_failure_escapes_witness :
  let env := mkCreateEnv (SdkOk test_frames) (fun x => SdkOk x)
               5000 1000 false true (fun _ => 255) in
  let s := set_out_framesize 24
             (set_rs_pipeline (Some (mkPipeline true)) init_fields) in
  gst_realsense_src_create env 0 s
    = Uncaught (std_runtime_error "failed to allocate buffer") /\
  forall r, gst_realsense_src_create env 0 s <> Returned r.
Proof.
  intros env s.
  apply (create_allocation_failure_escapes env 0 s test_frames test_frames);
    reflexivity.
Defined.

(** C7. In a streaming session whose device delivers frames and where
    nothing else fails: the [create] call that follows [unlock] returns
    [GST_FLOW_FLUSHING] together with the completely filled buffer, and the
    [create] call that follows a subsequent [unlock_stop] returns
    [GST_FLOW_OK]. *)
Theorem unlock_flushing_then_unlock_stop_ok
  (env1 env2 : create_env) (idx : Z) (s : GstRealsenseSrc)
  (fs1 fs2 : frameset) (filled1 filled2 : list Z) :
  create_completes env1 s fs1 filled1 ->
  create_completes env2 s fs2 filled2 ->
  exists r1 b1 r2 b2,
    gst_realsense_src_create env1 idx (snd (gst_realsense_src_unlock s)) = Returned r1 /\
    res_flow r1 = GST_FLOW_FLUSHING /\
    res_buf r1 = Some b1 /\ buf_data b1 = filled1 /\
    gst_realsense_src_create env2 (res_buf_index r1)
      (snd (gst_realsense_src_unlock_stop (res_src r1))) = Returned r2 /\
    res_flow r2 = GST_FLOW_OK /\
    res_buf r2 = Some b2 /\ buf_data b2 = filled2.
Proof.
  intros H1 H2.
  assert (H1' : create_completes env1 (snd (gst_realsense_src_unlock s)) fs1 filled1)
    by (eapply create_completes_same_session; [| | |exact H1]; reflexivity).
  pose proof (create_completes_returns env1 idx _ _ _ H1') as E1.
  eexists _, _. 
  assert (H2' : create_completes env2
                  (snd (gst_realsense_src_unlock_stop
                     (set_frame_count
                        (to_guint64 (frame_count (snd (gst_realsense_src_unlock s)) + 1))
                        (snd (gst_realsense_src_unlock s))))) fs2 filled2)
    by (eapply create_completes_same_session; [| | |exact H2]; reflexivity).
  pose proof (create_completes_returns env2 (to_gint (idx + 1)) _ _ _ H2') as E2.
  eexists _, _.
  split; [exact E1|]. split; [reflexivity|]. split; [reflexivity|].
  split; [reflexivity|]. split; [exact E2|].
  split; [reflexivity|]. split; reflexivity.
Qed.

Lemma unlock_flushing_then_unlock_stop_ok_witness :
  let s := set_out_framesize 24
             (set_rs_pipeline (Some (mkPipeline true)) init_fields) in
  exists r1 b1 r2 b2,
    gst_realsense_src_create (frames_env test_frames) 0
      (snd (gst_realsense_src_unlock s)) = Returned r1 /\
    res_flow r1 = GST_FLOW_FLUSHING /\
    res_buf r1 = Some b1 /\
    buf_data b1 = [11; 12; 13; 21; 22; 23; 31; 32; 33; 41; 42; 43;
                   7; 0; 7; 4; 123; 4; 9; 255; 9; 0; 0; 0] /\
    gst_realsense_src_create (frames_env test_frames) (res_buf_index r1)
      (snd (gst_realsense_src_unlock_stop (res_src r1))) = Returned r2 /\
    res_flow r2 = GST_FLOW_OK /\
    res_buf r2 = Some b2 /\
    buf_data b2 = [11; 12; 13; 21; 22; 23; 31; 32; 33; 41; 42; 43;
                   7; 0; 7; 4; 123; 4; 9; 255; 9; 0; 0; 0].
Proof.
  intros s.
  apply (unlock_flushing_then_unlock_stop_ok
           (frames_env test_frames) (frames_env test_frames) 0 s
           test_frames test_frames);
    (exists test_frames; repeat split; reflexivity).
Defined.

(* ===================================================================== *)
(** ** The negotiated format *)
(* ===================================================================== *)

Section NegotiatedFormat.

(** Every supported geometry has a width that is a multiple of 4, so its
    packed RGB rows need no padding. *)
Lemma supported_geometry_bounds (w h : Z) :
  supported_geometry w h = true ->
  w mod 4 = 0 /\ 0 < w <= 1920 /\ 0 < h <= 1080.
Proof.
  unfold supported_geometry. rewrite existsb_exists.
  intros ([[tw th] tf] & Hin & Heq).
  apply andb_true_iff in Heq as [Hw Hh].
  apply Z.eqb_eq in Hw, Hh. subst w h.
  unfold valid_color_modes, valid_depth_modes in Hin. simpl in Hin.
  repeat (destruct Hin as [Hin|Hin];
          [inversion Hin; subst; repeat split; (reflexivity || lia)|]).
  contradiction.
Qed.

Lemma GST_ROUND_UP_4_multiple (n : Z) : n mod 4 = 0 -> GST_ROUND_UP_4 n = n.
Proof.
  intros H. unfold GST_ROUND_UP_4.
  pose proof (Z.div_mod n 4 ltac:(lia)) as E. rewrite H in E.
  replace (n + 3) with (n / 4 * 4 + 3) by lia.
  rewrite Z.div_add_l by lia. replace (3 / 4) with 0 by reflexivity. lia.
Qed.

Lemma to_guint_small (n : Z) : 0 <= n < 2 ^ 32 -> to_guint n = n.
Proof. intros H. unfold to_guint. apply Z.mod_small. exact H. Qed.

Lemma video_info_size_supported (w h : Z) :
  supported_geometry w h = true ->
  to_guint w = w /\ to_guint (h * 2) = 2 * h /\
  to_guint (GST_VIDEO_INFO_SIZE_RGB w (2 * h)) = w * (2 * h) * 3.
Proof.
  intros H. apply supported_geometry_bounds in H as (Hm & Hw & Hh).
  split; [apply to_guint_small; lia|].
  split; [rewrite to_guint_small; lia|].
  unfold GST_VIDEO_INFO_SIZE_RGB.
  rewrite GST_ROUND_UP_4_multiple.
  - rewrite to_guint_small; [lia|]. split; [nia|].
    assert (w * 3 * (2 * h) <= 1920 * 3 * (2 * 1080)) by nia. lia.
  - rewrite Z.mul_mod, Hm by lia. reflexivity.
Qed.

End NegotiatedFormat.

(** C2, amended. For every start that returns TRUE, with [fs] the first
    frame set pulled, passed through the aligner when one exists (without
    an aligner it is the frame set the device delivered), and the geometry
    of its color frame that of a mode of either table: the negotiated caps
    carry that color frame's width and exactly twice its height, at 30/1
    fps, and the published frame size is width x negotiated height x 3
    bytes. *)
Theorem start_negotiated_format
  (env : start_env) (s0 s : GstRealsenseSrc) (msgs : list message)
  (fs0 fs : frameset) :
  gst_realsense_src_start env s0 = Returned (true, s, msgs) ->
  first_frames env = SdkOk fs0 ->
  maybe_align (aligner s) (first_align env) fs0 = SdkOk fs ->
  supported_geometry (frame_width (get_color_frame fs))
                     (frame_height (get_color_frame fs)) = true ->
  (exists v,
      caps s = Some v /\
      caps_width v = frame_width (get_color_frame fs) /\
      caps_height v = 2 * frame_height (get_color_frame fs) /\
      caps_fps_n v = 30 /\ caps_fps_d v = 1 /\
      out_framesize s = caps_width v * caps_height v * 3) /\
  (aligner s = None -> fs = fs0).
Proof.
  intros H Hf Ha Hg. split.
  - apply start_true_inv in H as [_ (fs0' & fs' & Hf' & Ha' & Hc & Ho)].
    rewrite Hf in Hf'. inversion Hf'; subst fs0'.
    rewrite Ha in Ha'. inversion Ha'; subst fs'.
    cbv zeta in Hc, Ho.
    destruct (video_info_size_supported _ _ Hg) as (Ew & Eh & Es).
    rewrite Ew, Eh in Hc, Ho. rewrite Es in Ho.
    eexists. split; [exact Hc|]. cbn [caps_width caps_height caps_fps_n caps_fps_d].
    repeat split; try reflexivity. exact Ho.
  - intros Hn. rewrite Hn in Ha. simpl in Ha. congruence.
Qed.

Lemma start_negotiated_format_witness :
  let fs := mkFrameset (mkFrame 1280 720 []) (mkFrame 1280 720 []) in
  let env := mkStartEnv (SdkOk [mkDevice D435I_NAME "0001" false])
               (SdkOk tt) None (SdkOk tt) (SdkOk tt)
               (SdkOk fs) (fun x => SdkOk x) in
  exists s msgs v,
    gst_realsense_src_start env init_fields = Returned (true, s, msgs) /\
    caps s = Some v /\
    caps_width v = 1280 /\ caps_height v = 1440 /\
    caps_fps_n v = 30 /\ caps_fps_d v = 1 /\
    out_framesize s = 1280 * 1440 * 3.
Proof.
  intros fs env.
  destruct (proj1 (start_negotiated_format env init_fields
              (set_out_framesize 5529600
                 (set_caps_field (Some (mkVideoCaps 1280 1440 30 1))
                    (set_rs_pipeline (Some (mkPipeline true))
                       (set_aligner (Some AlignColor) init_fields))))
              [] fs fs eq_refl eq_refl eq_refl eq_refl))
    as (v & Hc & Hw & Hh & Hn & Hd & Ho).
  exists (set_out_framesize 5529600
            (set_caps_field (Some (mkVideoCaps 1280 1440 30 1))
               (set_rs_pipeline (Some (mkPipeline true))
                  (set_aligner (Some AlignColor) init_fields)))), [], v.
  rewrite Hw, Hh in Ho.
  repeat split; try assumption; reflexivity.
Defined.

(* ===================================================================== *)
(** ** create: the buffer layout *)
(* ===================================================================== *)

Section BufferLayout.

Lemma firstn_app_exact {A} (l1 l2 : list A) (k : nat) :
  k = length l1 -> firstn k (l1 ++ l2) = l1.
Proof.
  intros ->. rewrite firstn_app, Nat.sub_diag, firstn_all. simpl.
  apply app_nil_r.
Qed.

Lemma skipn_app_past {A} (l1 l2 : list A) (k j : nat) :
  k = (length l1 + j)%nat -> skipn k (l1 ++ l2) = skipn j l2.
Proof.
  intros ->. rewrite skipn_app.
  rewrite (skipn_all2 l1) by lia. simpl. f_equal. lia.
Qed.

Lemma firstn_S_nth_error {A} (l : list A) (n : nat) (x : A) :
  nth_error l n = Some x -> firstn (S n) l = firstn n l ++ [x].
Proof.
  revert l. induction n as [|n IH]; intros [|y l] H; simpl in *; try discriminate.
  - inversion H. reflexivity.
  - f_equal. apply IH. exact H.
Qed.

Lemma encode_depth_length (d : Z) : length (encode_depth d) = 3%nat.
Proof. unfold encode_depth. destruct (d <? 2560); reflexivity. Qed.

Lemma flat_map_encode_length (l : list Z) :
  length (flat_map encode_depth l) = (3 * length l)%nat.
Proof.
  induction l as [|d l IH]; simpl; [reflexivity|].
  rewrite length_app, encode_depth_length, IH. lia.
Qed.

(** On a 16-bit sample the bytes stored are the ones the specification
    names: below 2560 the quotient by 10 fits a byte. *)
Lemma encode_depth_spec (d : Z) :
  0 <= d < 65536 -> encode_depth d = depth_pixel_spec d.
Proof.
  intros H. unfold encode_depth, depth_pixel_spec, to_guint8.
  destruct (d <? 2560) eqn:E; [|reflexivity].
  apply Z.ltb_lt in E.
  assert (0 <= d mod 10 < 10) by (apply Z.mod_pos_bound; lia).
  assert (0 <= d / 10 < 256)
    by (split; [apply Z.div_pos; lia | apply Z.div_lt_upper_bound; lia]).
  change (2 ^ 8) with 256.
  rewrite (Z.mod_small (d mod 10) 256), (Z.mod_small (d / 10) 256) by lia.
  reflexivity.
Qed.

Lemma depth_loop_S depth bottom n data :
  depth_loop depth bottom (S n) data =
    match depth_loop depth bottom n data with
    | Some d => depth_step depth bottom d n
    | None => None
    end.
Proof.
  unfold depth_loop. rewrite seq_S, fold_left_app. reflexivity.
Qed.

(** The loop, run inside the bounds: every turn writes its pixel behind the
    previous one, the bytes around stay. *)
Lemma depth_loop_spec depth bottom n data :
  (n <= length depth)%nat -> (bottom + 3 * n <= length data)%nat ->
  depth_loop depth bottom n data =
    Some (firstn bottom data ++ flat_map encode_depth (firstn n depth)
            ++ skipn (bottom + 3 * n) data).
Proof.
  induction n as [|n IH]; intros Hn Hb.
  - unfold depth_loop. simpl. rewrite Nat.add_0_r, firstn_skipn. reflexivity.
  - rewrite depth_loop_S, IH by lia. unfold depth_step.
    destruct (nth_error depth n) as [d|] eqn:En;
      [|apply nth_error_None in En; lia].
    rewrite (firstn_S_nth_error _ _ _ En), flat_map_app. simpl flat_map.
    rewrite app_nil_r.
    set (A := firstn bottom data).
    set (B := flat_map encode_depth (firstn n depth)).
    assert (HA : length A = bottom) by (subst A; rewrite length_firstn; lia).
    assert (HB : length B = (3 * n)%nat)
      by (subst B; rewrite flat_map_encode_length, length_firstn; lia).
    unfold write_pixel.
    assert (HL : length (A ++ B ++ skipn (bottom + 3 * n) data) = length data)
      by (rewrite !length_app, length_skipn; lia).
    rewrite HL. replace (bottom + n * 3 + 3 <=? length data)%nat with true
      by (symmetry; apply Nat.leb_le; lia).
    f_equal. rewrite (app_assoc A B).
    rewrite firstn_app_exact by (rewrite length_app; lia).
    rewrite (skipn_app_past _ _ _ 3) by (rewrite length_app; lia).
    rewrite skipn_skipn. rewrite <- !app_assoc.
    do 3 f_equal. f_equal. lia.
Qed.

(** Conversely, a loop that ran through stayed inside the bounds. *)
Lemma depth_loop_Some_inv depth bottom n data data' :
  depth_loop depth bottom n data = Some data' ->
  (n <= length depth)%nat /\ (n = 0%nat \/ bottom + 3 * n <= length data)%nat.
Proof.
  revert data'. induction n as [|n IH]; intros data' H.
  - split; [lia | left; reflexivity].
  - rewrite depth_loop_S in H.
    destruct (depth_loop depth bottom n data) as [dn|] eqn:E; [|discriminate].
    destruct (IH dn eq_refl) as [Hn Hb].
    unfold depth_step in H.
    destruct (nth_error depth n) as [d|] eqn:En; [|discriminate].
    assert (n < length depth)%nat by (apply nth_error_Some; congruence).
    unfold write_pixel in H.
    destruct (bottom + n * 3 + 3 <=? length dn)%nat eqn:Ew; [|discriminate].
    apply Nat.leb_le in Ew.
    assert (length dn = length data).
    { destruct Hb as [->|Hb].
      - unfold depth_loop in E. simpl in E. inversion E. reflexivity.
      - rewrite depth_loop_spec in E by lia. inversion E.
        rewrite !length_app, length_firstn, flat_map_encode_length,
          length_firstn, length_skipn. lia. }
    split; [lia | right; lia].
Qed.


End BufferLayout.

Section CreateSuccess.




(** [create] leaves the negotiated size, the session handle and the
    aligner as they are. *)
Lemma create_keeps_session env idx s r :
  gst_realsense_src_create env idx s = Returned r ->
  out_framesize (res_src r) = out_framesize s.
Proof.
  unfold gst_realsense_src_create. intros H.
  destruct (rs_pipeline s) as [p|]; [|discriminate].
  destruct (rs2_wait_for_frames p (pulled_frames env)) as [fs0|f].
  - destruct (maybe_align (aligner s) (align_process env) fs0) as [fs|f].
    + destruct (alloc_ok env); [|discriminate].
      destruct (map_ok env).
      * simpl in H. destruct (fill_buffer fs _); [|discriminate].
        inversion H. reflexivity.
      * inversion H. reflexivity.
    + inversion H. reflexivity.
  - inversion H. reflexivity.
Qed.

Lemma streaming_framesize s1 s :
  streaming s1 s -> out_framesize s = out_framesize s1.
Proof.
  induction 1 as [|env idx s r _ IH Hc|s _ IH|s _ IH].
  - reflexivity.
  - rewrite (create_keeps_session _ _ _ _ Hc). exact IH.
  - exact IH.
  - exact IH.
Qed.



End CreateSuccess.

Section SuccessfulCreate.




End SuccessfulCreate.




(* ===================================================================== *)
(** ** The property interface: what can and cannot be configured *)
(* ===================================================================== *)

Section ReachableModes.

(** In the color table, a triple that shares its width or its height with
    1280x720 is 1280x720 at 6, 15 or 30 fps. *)
Lemma color_table_neighbours (w h f : Z) :
  In (w, h, f) valid_color_modes ->
  w = 1280 \/ h = 720 ->
  w = 1280 /\ h = 720 /\ In f [6; 15; 30].
Proof.
  unfold valid_color_modes. simpl In. intros Hin Hor.
  repeat (destruct Hin as [Hin|Hin];
          [inversion Hin; subst; (repeat split; try reflexivity; tauto)
                                 || (exfalso; lia)|]).
  contradiction.
Qed.

(** In the depth table, a triple whose width is 640 or 848, or whose height
    is 480 or 360, has one of three geometries. *)
Lemma depth_table_neighbours (w h f : Z) :
  In (w, h, f) valid_depth_modes ->
  (w = 640 \/ w = 848) \/ (h = 480 \/ h = 360) ->
  In (w, h) [(640, 480); (848, 480); (640, 360)].
Proof.
  unfold valid_depth_modes. simpl In. intros Hin Hor.
  repeat (destruct Hin as [Hin|Hin];
          [inversion Hin; subst; tauto || (exfalso; lia)|]).
  contradiction.
Qed.


Lemma validate_color_mode_locked (s : GstRealsenseSrc) :
  positive_mode (color_mode s) ->
  color_width s = 1280 \/ color_height s = 720 ->
  color_locked (fst (validate_color_mode s)).
Proof.
  intros Hpos Hor. unfold validate_color_mode.
  rewrite (positive_mode_gtb _ _ _ Hpos).
  destruct (is_valid_mode valid_color_modes _ _ _) eqn:E; simpl.
  - apply is_valid_mode_In in E.
    exact (color_table_neighbours _ _ _ E Hor).
  - unfold color_locked. simpl. tauto.
Qed.

Lemma validate_depth_mode_near (s : GstRealsenseSrc) :
  positive_mode (depth_mode s) ->
  (depth_width s = 640 \/ depth_width s = 848)
    \/ (depth_height s = 480 \/ depth_height s = 360) ->
  depth_geometry_near (fst (validate_depth_mode s)).
Proof.
  intros Hpos Hor. unfold validate_depth_mode.
  rewrite (positive_mode_gtb _ _ _ Hpos).
  destruct (is_valid_mode valid_depth_modes _ _ _) eqn:E; simpl.
  - apply is_valid_mode_In in E.
    exact (depth_table_neighbours _ _ _ E Hor).
  - unfold depth_geometry_near. simpl. tauto.
Qed.

Lemma color_locked_ext (s s' : GstRealsenseSrc) :
  color_mode s' = color_mode s -> color_locked s -> color_locked s'.
Proof.
  unfold color_mode, color_locked. intros E. inversion E as [[Ew Eh Ef]].
  rewrite Ew, Eh, Ef. tauto.
Qed.

Lemma set_property_color_locked (p : property) (s : GstRealsenseSrc) :
  property_in_range p = true ->
  color_locked s ->
  color_locked (fst (gst_realsense_src_set_property p s)).
Proof.
  intros Hr (Hw & Hh & Hf).
  assert (Hpos : positive_mode (color_mode s)).
  { unfold color_mode. rewrite Hw, Hh. simpl in Hf. simpl. lia. }
  pose proof (assign_property_positive ColorStream p s Hr Hpos) as Pc.
  cbn [stream_mode] in Pc.
  assert (Hor : color_width (fst (assign_property p s)) = 1280
                \/ color_height (fst (assign_property p s)) = 720)
    by (destruct p; simpl; tauto).
  rewrite set_property_unfold. cbv zeta. cbn [fst].
  eapply color_locked_ext; [apply validate_depth_mode_color|].
  apply validate_color_mode_locked; assumption.
Qed.

Lemma set_property_depth_near (p : property) (s : GstRealsenseSrc) :
  property_in_range p = true ->
  positive_mode (depth_mode s) ->
  depth_geometry_near s ->
  depth_geometry_near (fst (gst_realsense_src_set_property p s)).
Proof.
  intros Hr Hpos Hnear.
  pose proof (assign_property_positive DepthStream p s Hr Hpos) as Pd.
  cbn [stream_mode] in Pd.
  assert (Hor : (depth_width (fst (assign_property p s)) = 640
                 \/ depth_width (fst (assign_property p s)) = 848)
                \/ (depth_height (fst (assign_property p s)) = 480
                    \/ depth_height (fst (assign_property p s)) = 360)).
  { unfold depth_geometry_near in Hnear. simpl In in Hnear.
    destruct Hnear as [E|[E|[E|[]]]]; inversion E as [[Ew Eh]];
      destruct p; simpl; rewrite <- ?Ew, <- ?Eh; tauto. }
  rewrite set_property_unfold. cbv zeta. cbn [fst].
  set (s1 := fst (assign_property p s)) in *.
  pose proof (validate_color_mode_depth s1) as Hd.
  apply validate_depth_mode_near.
  - rewrite Hd. exact Pd.
  - unfold depth_mode in Hd. inversion Hd as [[Ew Eh Ef]].
    rewrite Ew, Eh. exact Hor.
Qed.

End ReachableModes.

(** X1. Through the property interface the color resolution cannot be
    changed: after initialisation and any sequence of in-range property
    changes the stored color mode is 1280x720 at 6, 15 or 30 fps.  (Each
    change validates the stored triple at once, and no other table entry
    shares a width or a height with 1280x720.) *)
Theorem configured_color_is_1280x720 (s : GstRealsenseSrc) :
  configured s ->
  color_width s = 1280 /\ color_height s = 720 /\ In (color_fps s) [6; 15; 30].
Proof.
  induction 1 as [s Hinit | s p _ IH Hr].
  - rewrite init_returns in Hinit. inversion Hinit; subst. simpl. tauto.
  - exact (set_property_color_locked p s Hr IH).
Qed.

Lemma configured_color_is_1280x720_witness :
  let s := fst (gst_realsense_src_set_property (PROP_COLOR_FPS 30)
             (fst (gst_realsense_src_set_property (PROP_COLOR_HEIGHT 1080)
                (fst (gst_realsense_src_set_property (PROP_COLOR_WIDTH 1920)
                        init_fields))))) in
  color_width s = 1280 /\ color_height s = 720 /\ In (color_fps s) [6; 15; 30].
Proof.
  apply configured_color_is_1280x720.
  repeat (apply configured_set; [|reflexivity]).
  apply configured_init. reflexivity.
Defined.

(** X2. Through the property interface the depth geometry stays within
    640x480, 848x480 and 640x360: the table's other depth geometries
    (1280x720, 480x270, 424x240) cannot be configured. *)
Theorem configured_depth_geometry (s : GstRealsenseSrc) :
  configured s ->
  In (depth_width s, depth_height s) [(640, 480); (848, 480); (640, 360)].
Proof.
  intros H.
  assert (G : depth_geometry_near s /\ modes_valid s).
  { induction H as [s Hinit | s p H IH Hr].
    - rewrite init_returns in Hinit. inversion Hinit; subst.
      split; [left; reflexivity | split; reflexivity].
    - destruct IH as [Hn Hv]. split.
      + apply set_property_depth_near; [exact Hr | | exact Hn].
        exact (mode_in_positive DepthStream _ (proj2 Hv)).
      + apply set_property_modes_valid; assumption. }
  exact (proj1 G).
Qed.

Lemma configured_depth_geometry_witness :
  let s := fst (gst_realsense_src_set_property (PROP_DEPTH_HEIGHT 720)
             (fst (gst_realsense_src_set_property (PROP_DEPTH_WIDTH 848)
                     init_fields))) in
  In (depth_width s, depth_height s) [(640, 480); (848, 480); (640, 360)].
Proof.
  apply configured_depth_geometry.
  repeat (apply configured_set; [|reflexivity]).
  apply configured_init. reflexivity.
Defined.

Section SetterFrame.

Lemma validate_color_mode_quiet (s : GstRealsenseSrc) :
  snd (validate_color_mode s) = [] -> fst (validate_color_mode s) = s.
Proof.
  unfold validate_color_mode.
  destruct (_ && _); [destruct (negb _)|]; simpl; intros H;
    [discriminate | reflexivity | reflexivity].
Qed.

Lemma validate_depth_mode_quiet (s : GstRealsenseSrc) :
  snd (validate_depth_mode s) = [] -> fst (validate_depth_mode s) = s.
Proof.
  unfold validate_depth_mode.
  destruct (_ && _); [destruct (negb _)|]; simpl; intros H;
    [discriminate | reflexivity | reflexivity].
Qed.

Lemma align_int_roundtrip (v : Z) : align_to_int (align_of_int v) = v.
Proof.
  unfold align_of_int.
  destruct (v =? 0) eqn:E0; [apply Z.eqb_eq in E0; subst; reflexivity|].
  destruct (v =? 1) eqn:E1; [apply Z.eqb_eq in E1; subst; reflexivity|].
  destruct (v =? 2) eqn:E2; [apply Z.eqb_eq in E2; subst; reflexivity|].
  reflexivity.
Qed.

Lemma validate_color_mode_session (s : GstRealsenseSrc) :
  session_fields (fst (validate_color_mode s)) = session_fields s.
Proof.
  unfold validate_color_mode.
  destruct (_ && _); [destruct (negb _)|]; reflexivity.
Qed.

Lemma validate_depth_mode_session (s : GstRealsenseSrc) :
  session_fields (fst (validate_depth_mode s)) = session_fields s.
Proof.
  unfold validate_depth_mode.
  destruct (_ && _); [destruct (negb _)|]; reflexivity.
Qed.

End SetterFrame.

(** X3. A property change that posts no warning is read back unchanged:
    [get_property] for the same id returns exactly the value that was set
    (for the integer properties, the alignment included, and for the preset
    path). *)
Theorem set_property_get_property (p : property) (s : GstRealsenseSrc) :
  snd (gst_realsense_src_set_property p s) = [] ->
  exists v,
    property_value p = Some v /\
    gst_realsense_src_get_property (property_id_of p)
      (fst (gst_realsense_src_set_property p s)) = (Some v, []).
Proof.
  rewrite set_property_unfold. cbv zeta. cbn [fst snd]. intros H.
  apply app_eq_nil in H as [H1 H23]. apply app_eq_nil in H23 as [H2 H3].
  rewrite (validate_depth_mode_quiet _ H3) in *.
  rewrite (validate_color_mode_quiet _ H2) in *.
  destruct p; cbn in H1 |- *; try discriminate;
    eexists; (split; [reflexivity|]); try reflexivity.
  rewrite align_int_roundtrip. reflexivity.
Qed.

Lemma set_property_get_property_witness :
  exists v,
    property_value (PROP_DEPTH_WIDTH 848) = Some v /\
    gst_realsense_src_get_property ID_DEPTH_WIDTH
      (fst (gst_realsense_src_set_property (PROP_DEPTH_WIDTH 848) init_fields))
      = (Some v, []).
Proof.
  apply (set_property_get_property (PROP_DEPTH_WIDTH 848) init_fields).
  reflexivity.
Defined.

(** X4. The setter never touches the session: whatever the property and
    the value, [out_framesize], [stop_requested], [caps], [frame_count],
    the pipeline handle and the aligner in use are left as they were.  In
    particular a change of [align] does not reach the aligner of a running
    session. *)
Theorem set_property_keeps_session (p : property) (s : GstRealsenseSrc) :
  session_fields (fst (gst_realsense_src_set_property p s)) = session_fields s.
Proof.
  rewrite set_property_unfold. cbv zeta. cbn [fst].
  rewrite validate_depth_mode_session, validate_color_mode_session.
  destruct p; reflexivity.
Qed.

(* ===================================================================== *)
(** ** start: when it succeeds and what it leaves *)
(* ===================================================================== *)

Section StartOutcome.

Lemma select_aligner_aligner (s : GstRealsenseSrc) :
  aligner (fst (select_aligner s)) = aligner_after_start s.
Proof.
  unfold select_aligner, aligner_after_start.
  destruct (align s) as [[]|raw]; reflexivity.
Qed.

(** The session, run under answers that let it through. *)
Lemma start_session_ok env s dev rest m1 u fs0 fs :
  query_devices env = SdkOk (dev :: rest) ->
  String.eqb (dev_name dev) D435I_NAME = true ->
  load_preset env (set_rs_pipeline (Some (mkPipeline false)) s) dev = SdkOk m1 ->
  pipeline_start env = SdkOk u ->
  first_frames env = SdkOk fs0 ->
  maybe_align (aligner_after_start s) (first_align env) fs0 = SdkOk fs ->
  start_session env s =
    Returned (true, started_state s fs,
              m1 ++ snd (select_aligner (set_rs_pipeline (Some (mkPipeline false)) s))
                 ++ []).
Proof.
  intros Hq Hn Hl Hs Hf Ha. unfold start_session, started_state.
  rewrite Hq, Hn, Hl.
  pose proof (select_aligner_aligner (set_rs_pipeline (Some (mkPipeline false)) s)) as Hal.
  destruct (select_aligner _) as [s2 m2]. cbn [fst snd] in *.
  rewrite Hs. unfold gst_realsense_src_calculate_caps.
  cbn [rs_pipeline set_rs_pipeline]. unfold rs2_wait_for_frames.
  cbn [pipeline_running]. rewrite Hf.
  cbn [aligner set_rs_pipeline]. 
  change (aligner_after_start (set_rs_pipeline (Some (mkPipeline false)) s))
    with (aligner_after_start s) in Hal.
  rewrite Hal, Ha. reflexivity.
Qed.

(** Conversely a TRUE return had such answers. *)
Lemma start_session_true_inv env s s' msgs :
  start_session env s = Returned (true, s', msgs) ->
  start_env_ok env s.
Proof.
  unfold start_session, start_env_ok. intros H.
  destruct (query_devices env) as [[|dev rest]|f]; try discriminate.
  destruct (String.eqb (dev_name dev) D435I_NAME) eqn:En; [|discriminate].
  destruct (load_preset env _ dev) as [m1|f] eqn:El; [|discriminate].
  pose proof (select_aligner_aligner (set_rs_pipeline (Some (mkPipeline false)) s)) as Hal.
  change (aligner_after_start (set_rs_pipeline (Some (mkPipeline false)) s))
    with (aligner_after_start s) in Hal.
  destruct (select_aligner _) as [s2 m2]. cbn [fst] in Hal.
  destruct (pipeline_start env) as [u|f]; [|discriminate].
  destruct (gst_realsense_src_calculate_caps env _) as [[[ok4 s4] m3]| |] eqn:Ec;
    try discriminate.
  inversion H; subst ok4 s4 msgs.
  apply (calculate_caps_true_inv env
           (set_rs_pipeline (Some (mkPipeline true)) s2) s' m3
           (mkPipeline true) eq_refl eq_refl) in Ec.
  destruct Ec as (fs0 & fs & Hf & Ha & _).
  cbn [aligner set_rs_pipeline] in Ha. rewrite Hal in Ha.
  exists dev, rest, m1, u, fs0, fs. repeat split; assumption || reflexivity.
Qed.

Lemma modes_valid_dec (s : GstRealsenseSrc) :
  modes_valid s \/
  (forall env, exists e,
      gst_realsense_src_start env s = Returned (false, s, [e]) /\ mode_error e = true).
Proof.
  destruct (is_valid_mode valid_color_modes
              (color_width s) (color_height s) (color_fps s)) eqn:Ec.
  - destruct (is_valid_mode valid_depth_modes
                (depth_width s) (depth_height s) (depth_fps s)) eqn:Ed.
    + left. split; [exact Ec | exact Ed].
    + right. intros env. eexists. split;
        [apply (start_depth_invalid env s Ec Ed) | reflexivity].
  - right. intros env. eexists. split;
      [apply (start_color_invalid env s Ec) | reflexivity].
Qed.

End StartOutcome.

(** X5. [start] returns TRUE exactly when both stored modes are in their
    tables and the SDK lets the session through: a D435I comes first in the
    enumeration, the preset step raises no SDK error, [rs_pipeline->start]
    is accepted, and a first frame set is delivered and accepted by the
    aligner.  Nothing else in the element's state matters: not an earlier
    session handle, caps or frame size. *)
Theorem start_returns_true_iff (env : start_env) (s : GstRealsenseSrc) :
  (exists s' msgs, gst_realsense_src_start env s = Returned (true, s', msgs))
  <-> (modes_valid s /\ start_env_ok env s).
Proof.
  split.
  - intros (s' & msgs & H).
    destruct (modes_valid_dec s) as [Hv | Hbad].
    + split; [exact Hv|].
      rewrite (start_after_validation env s Hv) in H.
      eapply start_session_true_inv. exact H.
    + destruct (Hbad env) as (e & He & _). rewrite He in H. discriminate.
  - intros (Hv & dev & rest & m1 & u & fs0 & fs & Hq & Hn & Hl & Hs & Hf & Ha).
    rewrite (start_after_validation env s Hv).
    rewrite (start_session_ok env s dev rest m1 u fs0 fs Hq Hn Hl Hs Hf Ha).
    eexists _, _. reflexivity.
Qed.

(** X6. With a stored mode that is not in its table, [start] returns
    FALSE with exactly one invalid-mode error, leaves the element as it was
    (no session handle is created) and makes no SDK call: the outcome is
    the same whatever the SDK would have answered. *)
Theorem start_invalid_mode_fails_fast (env env' : start_env) (s : GstRealsenseSrc) :
  mode_in valid_color_modes (color_mode s)
    && mode_in valid_depth_modes (depth_mode s) = false ->
  (exists e, gst_realsense_src_start env s = Returned (false, s, [e])
             /\ mode_error e = true) /\
  gst_realsense_src_start env' s = gst_realsense_src_start env s.
Proof.
  intros Hbad.
  destruct (modes_valid_dec s) as [[Hc Hd] | Hf].
  - rewrite Hc, Hd in Hbad. discriminate.
  - split; [exact (Hf env)|].
    destruct (Hf env) as (e & He & _). destruct (Hf env') as (e' & He' & _).
    rewrite He, He'.
    assert (Heq : Returned (false, s, [e']) = Returned (false, s, [e])).
    { destruct (is_valid_mode valid_color_modes
                  (color_width s) (color_height s) (color_fps s)) eqn:Ec.
      - destruct (is_valid_mode valid_depth_modes
                    (depth_width s) (depth_height s) (depth_fps s)) eqn:Ed.
        + unfold mode_in, color_mode, depth_mode in Hbad.
          rewrite Ec, Ed in Hbad. discriminate.
        + rewrite (start_depth_invalid env s Ec Ed) in He.
          rewrite (start_depth_invalid env' s Ec Ed) in He'.
          congruence.
      - rewrite (start_color_invalid env s Ec) in He.
        rewrite (start_color_invalid env' s Ec) in He'.
        congruence. }
    exact Heq.
Qed.

Lemma start_invalid_mode_fails_fast_witness :
  let s := set_depth_fps 999 (set_depth_height 999 (set_depth_width 999 init_fields)) in
  (exists e, gst_realsense_src_start d435i_env s = Returned (false, s, [e])
             /\ mode_error e = true) /\
  gst_realsense_src_start
    (mkStartEnv (SdkOk []) (SdkOk tt) None (SdkOk tt) (SdkOk tt)
                (SdkThrows "none") (fun fs => SdkOk fs)) s
    = gst_realsense_src_start d435i_env s.
Proof.
  intros s. apply (start_invalid_mode_fails_fast d435i_env _ s). reflexivity.
Defined.

Section StartedState.

(** What [start] leaves of the configuration and of the session. *)
Lemma started_state_fields (s : GstRealsenseSrc) (fs : frameset) :
  let width := to_guint (frame_width (get_color_frame fs)) in
  let height := to_guint (frame_height (get_color_frame fs) * 2) in
  color_mode (started_state s fs) = color_mode s /\
  depth_mode (started_state s fs) = depth_mode s /\
  preset_file (started_state s fs) = preset_file s /\
  align (started_state s fs) = align s /\
  aligner (started_state s fs) = aligner_after_start s /\
  stop_requested (started_state s fs) = stop_requested s /\
  rs_pipeline (started_state s fs) = Some (mkPipeline true) /\
  caps (started_state s fs) = Some (mkVideoCaps width height 30 1) /\
  out_framesize (started_state s fs)
    = to_guint (GST_VIDEO_INFO_SIZE_RGB width height) /\
  frame_count (started_state s fs) = frame_count s.
Proof.
  unfold started_state, select_aligner, aligner_after_start.
  cbn [align set_rs_pipeline].
  destruct (align s) as [[]|raw] eqn:E; repeat split; try reflexivity; exact E.
Qed.

Lemma start_true_state env s s' msgs :
  gst_realsense_src_start env s = Returned (true, s', msgs) ->
  modes_valid s /\
  exists dev rest m1 u fs0 fs,
    query_devices env = SdkOk (dev :: rest) /\
    String.eqb (dev_name dev) D435I_NAME = true /\
    load_preset env (set_rs_pipeline (Some (mkPipeline false)) s) dev = SdkOk m1 /\
    pipeline_start env = SdkOk u /\
    first_frames env = SdkOk fs0 /\
    maybe_align (aligner_after_start s) (first_align env) fs0 = SdkOk fs /\
    s' = started_state s fs /\
    msgs = m1 ++ snd (select_aligner (set_rs_pipeline (Some (mkPipeline false)) s)) ++ [].
Proof.
  intros H.
  destruct (modes_valid_dec s) as [Hv | Hbad].
  2:{ destruct (Hbad env) as (e & He & _). rewrite He in H. discriminate. }
  split; [exact Hv|].
  rewrite (start_after_validation env s Hv) in H.
  destruct (start_session_true_inv _ _ _ _ H)
    as (dev & rest & m1 & u & fs0 & fs & Hq & Hn & Hl & Hs & Hf & Ha).
  rewrite (start_session_ok env s dev rest m1 u fs0 fs Hq Hn Hl Hs Hf Ha) in H.
  inversion H.
  exists dev, rest, m1, u, fs0, fs. repeat split; assumption || reflexivity.
Qed.

Lemma load_preset_ext env s s' dev :
  preset_file s' = preset_file s -> load_preset env s' dev = load_preset env s dev.
Proof. intros E. unfold load_preset. rewrite E. reflexivity. Qed.

Lemma aligner_after_start_idem (s s' : GstRealsenseSrc) :
  align s' = align s -> aligner s' = aligner_after_start s ->
  aligner_after_start s' = aligner_after_start s.
Proof.
  intros Ea El. unfold aligner_after_start in *. rewrite Ea, El.
  destruct (align s) as [[]|raw]; reflexivity.
Qed.

Lemma modes_valid_ext (s s' : GstRealsenseSrc) :
  color_mode s' = color_mode s -> depth_mode s' = depth_mode s ->
  modes_valid s -> modes_valid s'.
Proof. unfold modes_valid. intros -> ->. tauto. Qed.

End StartedState.

(** X7. A preset path that cannot be opened does not stop [start]: when
    the SDK otherwise lets the session through, [start] returns TRUE and
    has posted the "could not open preset file" warning for that path. *)
Theorem start_unreadable_preset_warns
  (env : start_env) (s : GstRealsenseSrc) (path : string) :
  modes_valid s ->
  start_env_ok env s ->
  preset_file s = Some path ->
  String.eqb path "" = false ->
  open_preset env = None ->
  exists s' msgs,
    gst_realsense_src_start env s = Returned (true, s', msgs) /\
    In (WarnPresetFileUnreadable path) msgs /\
    rs_pipeline s' = Some (mkPipeline true).
Proof.
  intros Hv (dev & rest & m1 & u & fs0 & fs & Hq & Hn & Hl & Hs & Hf & Ha) Hp He Ho.
  rewrite (start_after_validation env s Hv).
  rewrite (start_session_ok env s dev rest m1 u fs0 fs Hq Hn Hl Hs Hf Ha).
  eexists _, _. split; [reflexivity|]. split.
  - apply in_or_app. left.
    unfold load_preset in Hl. cbn [preset_file set_rs_pipeline] in Hl.
    rewrite Hp, He, Ho in Hl. cbn [negb] in Hl.
    destruct (if negb (dev_advanced_enabled dev)
              then toggle_advanced_mode env else SdkOk tt); [|discriminate].
    inversion Hl. left. reflexivity.
  - apply started_state_fields.
Qed.

Lemma start_unreadable_preset_warns_witness :
  exists s' msgs,
    gst_realsense_src_start d435i_env
      (set_preset_file (Some "/nonexistent.json"%string) init_fields)
      = Returned (true, s', msgs) /\
    In (WarnPresetFileUnreadable "/nonexistent.json") msgs /\
    rs_pipeline s' = Some (mkPipeline true).
Proof.
  apply (start_unreadable_preset_warns d435i_env _ "/nonexistent.json").
  - split; reflexivity.
  - exists (mkDevice D435I_NAME "0001" false), [],
      [WarnPresetFileUnreadable "/nonexistent.json"], tt, test_frames, test_frames.
    repeat split; reflexivity.
  - reflexivity.
  - reflexivity.
  - reflexivity.
Defined.

(** X8. [start] never removes an aligner: with [align] = None it leaves
    the aligner of an earlier session in place, passes the first frame set
    through it and computes the caps from the aligned result. *)
Theorem start_keeps_stale_aligner
  (env : start_env) (s s' : GstRealsenseSrc) (msgs : list message) (a : Align) :
  align s = AlignOf AlignNone ->
  aligner s = Some a ->
  gst_realsense_src_start env s = Returned (true, s', msgs) ->
  aligner s' = Some a /\
  exists fs0 fs,
    first_frames env = SdkOk fs0 /\
    first_align env fs0 = SdkOk fs /\
    caps s' = Some (mkVideoCaps (to_guint (frame_width (get_color_frame fs)))
                                (to_guint (frame_height (get_color_frame fs) * 2))
                                30 1).
Proof.
  intros Hal Ha H.
  destruct (start_true_state _ _ _ _ H)
    as (_ & dev & rest & m1 & u & fs0 & fs & _ & _ & _ & _ & Hf & Hm & Hs' & _).
  assert (E : aligner_after_start s = Some a)
    by (unfold aligner_after_start; rewrite Hal; exact Ha).
  rewrite E in Hm. simpl in Hm.
  destruct (started_state_fields s fs) as (_ & _ & _ & _ & Hg & _ & _ & Hc & _).
  subst s'. split; [rewrite Hg; exact E|].
  exists fs0, fs. split; [exact Hf|]. split; [exact Hm | exact Hc].
Qed.

Lemma start_keeps_stale_aligner_witness :
  let s := set_align (AlignOf AlignNone)
             (set_aligner (Some AlignColor) init_fields) in
  exists s', gst_realsense_src_start d435i_env s = Returned (true, s', [])
             /\ aligner s' = Some AlignColor.
Proof.
  intros s.
  exists (started_state s test_frames). split; [reflexivity|].
  refine (proj1 (start_keeps_stale_aligner d435i_env s _ [] AlignColor _ _ _));
    reflexivity.
Defined.

(* ===================================================================== *)
(** ** Sessions: failed starts, restarts, cancellation *)
(* ===================================================================== *)

Section Sessions.

Lemma select_aligner_caps (s : GstRealsenseSrc) :
  caps (fst (select_aligner s)) = caps s.
Proof. unfold select_aligner. destruct (align s) as [[]|raw]; reflexivity. Qed.

Lemma calculate_caps_false_state env s s' m :
  gst_realsense_src_calculate_caps env s = Returned (false, s', m) -> s' = s.
Proof.
  unfold gst_realsense_src_calculate_caps. intros H.
  destruct (rs_pipeline s) as [p|]; [|discriminate].
  destruct (rs2_wait_for_frames p (first_frames env)) as [fs0|f].
  - destruct (maybe_align (aligner s) (first_align env) fs0) as [fs|f];
      inversion H; reflexivity.
  - inversion H; reflexivity.
Qed.

(** A FALSE return past the mode checks leaves a session handle and the
    caps it found. *)
Lemma start_session_false_state env s s' msgs :
  start_session env s = Returned (false, s', msgs) ->
  rs_pipeline s' <> None /\ caps s' = caps s.
Proof.
  unfold start_session. intros H.
  destruct (query_devices env) as [[|dev rest]|f].
  - inversion H. split; [discriminate | reflexivity].
  - destruct (String.eqb (dev_name dev) D435I_NAME).
    + destruct (load_preset env _ dev) as [m1|f].
      * pose proof (select_aligner_fields
                      (set_rs_pipeline (Some (mkPipeline false)) s)) as (Hp & _).
        pose proof (select_aligner_caps
                      (set_rs_pipeline (Some (mkPipeline false)) s)) as Hc.
        destruct (select_aligner _) as [s2 m2]. cbn [fst] in Hp, Hc.
        destruct (pipeline_start env) as [u|f].
        -- destruct (gst_realsense_src_calculate_caps env _)
             as [[[ok4 s4] m3]| |] eqn:Ec; try discriminate.
           inversion H; subst ok4 s4 msgs.
           apply calculate_caps_false_state in Ec. subst s'.
           split; [discriminate | exact Hc].
        -- inversion H; subst s' msgs.
           split; [rewrite Hp; discriminate | exact Hc].
      * inversion H. split; [discriminate | reflexivity].
    + inversion H. split; [discriminate | reflexivity].
  - inversion H. split; [discriminate | reflexivity].
Qed.

Lemma stop_returns_fields s b s1 :
  gst_realsense_src_stop s = Returned (b, s1) ->
  b = true /\
  stop_requested s1 = stop_requested s /\
  out_framesize s1 = 0 /\ frame_count s1 = 0 /\ caps s1 = None /\
  aligner s1 = aligner s /\ align s1 = align s /\
  preset_file s1 = preset_file s /\
  color_mode s1 = color_mode s /\ depth_mode s1 = depth_mode s.
Proof.
  unfold gst_realsense_src_stop, gst_realsense_src_reset. intros H.
  destruct (rs_pipeline s) as [p|].
  - destruct (rs2_pipeline_stop p); [|discriminate].
    inversion H. repeat split; reflexivity.
  - inversion H. repeat split; reflexivity.
Qed.

End Sessions.

(** X9. [get_caps] returns NULL exactly when a session handle exists
    while [caps] is NULL; in every other state it returns caps (the pad
    template caps without a handle, a copy of the stored caps otherwise),
    intersected with the filter when one is given. *)
Theorem get_caps_null_iff (s : GstRealsenseSrc) (filter : option GstCaps) :
  gst_realsense_src_get_caps s filter = None
  <-> (rs_pipeline s <> None /\ caps s = None).
Proof.
  unfold gst_realsense_src_get_caps, gst_caps_copy.
  destruct (rs_pipeline s) as [p|], (caps s) as [v|], filter as [f|]; simpl;
    split; try discriminate; try (intros [H1 H2]; congruence);
    intros _; split; congruence.
Qed.

(** X10. A [start] that fails with "no device found", with "not a
    D435i" or in the caps calculation has already created its session
    handle and leaves it behind; on an element that had no caps, every
    later [get_caps] then returns NULL instead of the pad template caps. *)
Theorem failed_start_get_caps_null
  (env : start_env) (s s' : GstRealsenseSrc) (msgs : list message)
  (filter : option GstCaps) :
  caps s = None ->
  gst_realsense_src_start env s = Returned (false, s', msgs) ->
  (In ErrNoDevice msgs \/ In ErrNotD435i msgs
   \/ exists f, In (ErrCapsCalculation f) msgs) ->
  rs_pipeline s' <> None /\ gst_realsense_src_get_caps s' filter = None.
Proof.
  intros Hc H Hmsg.
  destruct (modes_valid_dec s) as [Hv | Hbad].
  2:{ exfalso. destruct (Hbad env) as (e & He & Hme). rewrite He in H.
      inversion H; subst s' msgs.
      destruct Hmsg as [Hm | [Hm | (f & Hm)]];
        destruct Hm as [Hm | []]; subst e; discriminate Hme. }
  rewrite (start_after_validation env s Hv) in H.
  destruct (start_session_false_state _ _ _ _ H) as [Hp Hc'].
  split; [exact Hp|].
  unfold gst_realsense_src_get_caps.
  destruct (rs_pipeline s') as [p|]; [|congruence].
  rewrite Hc', Hc. simpl. destruct filter; reflexivity.
Qed.

Lemma failed_start_get_caps_null_witness :
  exists s',
    gst_realsense_src_start
      (mkStartEnv (SdkOk []) (SdkOk tt) None (SdkOk tt) (SdkOk tt)
                  (SdkThrows "none") (fun fs => SdkOk fs))
      init_fields = Returned (false, s', [ErrNoDevice]) /\
    rs_pipeline s' <> None /\ gst_realsense_src_get_caps s' None = None.
Proof.
  exists (set_rs_pipeline (Some (mkPipeline false)) init_fields).
  split; [reflexivity|].
  apply (failed_start_get_caps_null
           (mkStartEnv (SdkOk []) (SdkOk tt) None (SdkOk tt) (SdkOk tt)
                       (SdkThrows "none") (fun fs => SdkOk fs))
           init_fields _ [ErrNoDevice] None).
  - reflexivity.
  - reflexivity.
  - left. left. reflexivity.
Defined.

(** X11. Neither [stop] nor [start] clears the cancellation flag: a
    cancellation latched by [unlock] before a stop/start cycle is still
    latched in the new session, whose [create] calls return
    [GST_FLOW_FLUSHING] until [unlock_stop] is called. *)
Theorem cancellation_survives_restart
  (env : start_env) (s s1 s2 : GstRealsenseSrc) (msgs : list message)
  (cenv : create_env) (idx : Z) (fs : frameset) (filled : list Z) :
  gst_realsense_src_stop (snd (gst_realsense_src_unlock s)) = Returned (true, s1) ->
  gst_realsense_src_start env s1 = Returned (true, s2, msgs) ->
  create_completes cenv s2 fs filled ->
  stop_requested s2 = true /\
  exists r, gst_realsense_src_create cenv idx s2 = Returned r /\
            res_flow r = GST_FLOW_FLUSHING.
Proof.
  intros Hstop Hstart Hc.
  apply stop_returns_fields in Hstop as (_ & Hsr & _).
  destruct (start_true_state _ _ _ _ Hstart)
    as (_ & dev & rest & m1 & u & fs0 & fs' & _ & _ & _ & _ & _ & _ & Hs2 & _).
  destruct (started_state_fields s1 fs') as (_ & _ & _ & _ & _ & Hsr2 & _).
  assert (E : stop_requested s2 = true)
    by (subst s2; rewrite Hsr2, Hsr; reflexivity).
  split; [exact E|].
  eexists. split; [apply (create_completes_returns cenv idx s2 fs filled Hc)|].
  cbn [res_flow]. rewrite E. reflexivity.
Qed.

Lemma cancellation_survives_restart_witness :
  let s := started_state init_fields test_frames in
  let s1 := set_caps_field None (set_frame_count 0 (set_out_framesize 0
              (set_rs_pipeline (Some (mkPipeline false))
                 (snd (gst_realsense_src_unlock s))))) in
  let s2 := started_state s1 test_frames in
  stop_requested s2 = true /\
  exists r, gst_realsense_src_create (frames_env test_frames) 0 s2 = Returned r /\
            res_flow r = GST_FLOW_FLUSHING.
Proof.
  intros s s1 s2.
  apply (cancellation_survives_restart d435i_env s s1 s2 []
           (frames_env test_frames) 0 test_frames
           [11; 12; 13; 21; 22; 23; 31; 32; 33; 41; 42; 43;
            7; 0; 7; 4; 123; 4; 9; 255; 9; 0; 0; 0]).
  - reflexivity.
  - reflexivity.
  - exists test_frames. repeat split; reflexivity.
Defined.

(** X12. A session can be restarted: after a successful [start] and a
    [stop], starting again under the same SDK answers succeeds and
    negotiates the same caps and frame size, with the same aligner and the
    frame counter back at zero. *)
Theorem restart_negotiates_same_format
  (env : start_env) (s0 s1 : GstRealsenseSrc) (msgs : list message) :
  gst_realsense_src_start env s0 = Returned (true, s1, msgs) ->
  exists s2 s3 msgs',
    gst_realsense_src_stop s1 = Returned (true, s2) /\
    gst_realsense_src_start env s2 = Returned (true, s3, msgs') /\
    caps s3 = caps s1 /\ out_framesize s3 = out_framesize s1 /\
    aligner s3 = aligner s1 /\ frame_count s3 = 0.
Proof.
  intros H.
  destruct (start_true_state _ _ _ _ H)
    as (Hv & dev & rest & m1 & u & fs0 & fs & Hq & Hn & Hl & Hs & Hf & Ha & Hs1 & _).
  destruct (started_state_fields s0 fs)
    as (Hcm & Hdm & Hpf & Hal & Hag & _ & Hrp & Hcaps & Hsize & _).
  rewrite <- Hs1 in *.
  pose proof (stop_running s1 Hrp) as Hstop.
  destruct (stop_returns_fields _ _ _ Hstop)
    as (_ & _ & _ & Hfc & _ & Hag2 & Hal2 & Hpf2 & Hcm2 & Hdm2).
  set (s2 := set_caps_field None (set_frame_count 0 (set_out_framesize 0
               (set_rs_pipeline (Some (mkPipeline false)) s1)))) in *.
  assert (Hv2 : modes_valid s2)
    by (apply (modes_valid_ext s0); [congruence | congruence | exact Hv]).
  assert (Hl2 : load_preset env (set_rs_pipeline (Some (mkPipeline false)) s2) dev
                = SdkOk m1).
  { rewrite <- Hl. apply load_preset_ext.
    change (preset_file s2 = preset_file s0). congruence. }
  assert (Ha2 : maybe_align (aligner_after_start s2) (first_align env) fs0 = SdkOk fs).
  { rewrite (aligner_after_start_idem s0 s2); [exact Ha | congruence | congruence]. }
  exists s2, (started_state s2 fs). eexists.
  split; [exact Hstop|]. split.
  - rewrite (start_after_validation env s2 Hv2).
    apply (start_session_ok env s2 dev rest m1 u fs0 fs Hq Hn Hl2 Hs Hf Ha2).
  - destruct (started_state_fields s2 fs)
      as (_ & _ & _ & _ & Hag3 & _ & _ & Hcaps3 & Hsize3 & Hfc3).
    rewrite Hcaps3, Hsize3, Hag3, Hfc3, Hcaps, Hsize, Hag.
    repeat split; try reflexivity;
      try (apply aligner_after_start_idem; congruence).
Qed.

Lemma restart_negotiates_same_format_witness :
  exists s2 s3 msgs',
    gst_realsense_src_stop (started_state init_fields test_frames)
      = Returned (true, s2) /\
    gst_realsense_src_start d435i_env s2 = Returned (true, s3, msgs') /\
    caps s3 = caps (started_state init_fields test_frames) /\
    out_framesize s3 = out_framesize (started_state init_fields test_frames) /\
    aligner s3 = aligner (started_state init_fields test_frames) /\
    frame_count s3 = 0.
Proof.
  apply (restart_negotiates_same_format d435i_env init_fields _ []).
  reflexivity.
Defined.

(* ===================================================================== *)
(** ** create: errors, bounds and buffer metadata *)
(* ===================================================================== *)

Section CreateBounds.

Lemma depth_loop_length depth bottom n data data' :
  depth_loop depth bottom n data = Some data' -> length data' = length data.
Proof.
  intros H. destruct (depth_loop_Some_inv _ _ _ _ _ H) as [Hn [Hz|Hb]].
  - subst n. unfold depth_loop in H. simpl in H. inversion H. reflexivity.
  - rewrite depth_loop_spec in H by assumption. inversion H.
    rewrite !length_app, length_firstn, flat_map_encode_length,
      length_firstn, length_skipn. lia.
Qed.

Lemma half_le (L : nat) : (L / 2 <= L)%nat.
Proof. apply Nat.Div0.div_le_upper_bound. lia. Qed.

(** The mapped bytes keep their number whatever is written. *)
Lemma fill_buffer_length fs data data' :
  fill_buffer fs data = Some data' -> length data' = length data.
Proof.
  unfold fill_buffer, memcpy_top. intros H.
  destruct ((length data / 2 <=? length (frame_data (get_color_frame fs)))%nat
            && (length data / 2 <=? length data)%nat) eqn:E; [|discriminate].
  apply andb_true_iff in E as [E1 E2]. apply Nat.leb_le in E1, E2.
  apply depth_loop_length in H. rewrite H.
  rewrite length_app, length_firstn, length_skipn. lia.
Qed.

(** When the filling stays inside the frames and the buffer. *)
Lemma fill_buffer_Some_iff fs data :
  let n := Z.to_nat (to_gint (frame_width (get_color_frame fs)
                              * frame_height (get_color_frame fs))) in
  (exists data', fill_buffer fs data = Some data') <->
  ((length data / 2 <= length (frame_data (get_color_frame fs)))%nat /\
   (n <= length (frame_data (get_depth_frame fs)))%nat /\
   (n = 0%nat \/ length data / 2 + 3 * n <= length data)%nat).
Proof.
  intros n. unfold fill_buffer, memcpy_top. fold n.
  pose proof (half_le (length data)) as Hh.
  split.
  - intros (data' & H).
    destruct ((length data / 2 <=? length (frame_data (get_color_frame fs)))%nat
              && (length data / 2 <=? length data)%nat) eqn:E; [|discriminate].
    apply andb_true_iff in E as [E1 E2]. apply Nat.leb_le in E1.
    destruct (depth_loop_Some_inv _ _ _ _ _ H) as [Hn Hb].
    rewrite length_app, length_firstn, length_skipn in Hb.
    split; [exact E1|]. split; [exact Hn|]. lia.
  - intros (Hc & Hn & Hb).
    replace ((length data / 2 <=? length (frame_data (get_color_frame fs)))%nat
             && (length data / 2 <=? length data)%nat) with true
      by (symmetry; apply andb_true_iff; split; apply Nat.leb_le; lia).
    destruct Hb as [Hz|Hb].
    + rewrite Hz. eexists. unfold depth_loop. simpl. reflexivity.
    + eexists. apply depth_loop_spec; [exact Hn|].
      rewrite length_app, length_firstn, length_skipn. lia.
Qed.

(** The result of a [create] that got past allocation and mapping. *)
Lemma create_past_mapping env idx s fs0 fs :
  rs_pipeline s = Some (mkPipeline true) ->
  pulled_frames env = SdkOk fs0 ->
  maybe_align (aligner s) (align_process env) fs0 = SdkOk fs ->
  alloc_ok env = true -> map_ok env = true ->
  gst_realsense_src_create env idx s =
    match fill_buffer fs (map (fresh_byte env) (seq 0 (Z.to_nat (out_framesize s)))) with
    | None => MemoryFault
    | Some data =>
        Returned (mkCreateResult
                    (if stop_requested s then GST_FLOW_FLUSHING else GST_FLOW_OK)
                    (Some (mkBuffer data
                             (to_guint64 (clock_time env - base_time env))
                             (to_guint64 (clock_time env - base_time env))
                             (to_guint64 idx)))
                    (set_frame_count (to_guint64 (frame_count s + 1)) s)
                    (to_gint (idx + 1)) [])
    end.
Proof.
  intros Hp Hpull Halign Halloc Hmap. unfold gst_realsense_src_create.
  rewrite Hp. unfold rs2_wait_for_frames. cbn [pipeline_running].
  rewrite Hpull, Halign, Halloc, Hmap. reflexivity.
Qed.

(** Every return of [create] that is not an error has this shape. *)
Lemma create_delivered_inv env idx s r :
  gst_realsense_src_create env idx s = Returned r ->
  res_flow r <> GST_FLOW_ERROR ->
  exists data,
    length data = Z.to_nat (out_framesize s) /\
    r = mkCreateResult
          (if stop_requested s then GST_FLOW_FLUSHING else GST_FLOW_OK)
          (Some (mkBuffer data
                   (to_guint64 (clock_time env - base_time env))
                   (to_guint64 (clock_time env - base_time env))
                   (to_guint64 idx)))
          (set_frame_count (to_guint64 (frame_count s + 1)) s)
          (to_gint (idx + 1)) [].
Proof.
  unfold gst_realsense_src_create. intros H Hflow.
  destruct (rs_pipeline s) as [p|]; [|discriminate].
  destruct (rs2_wait_for_frames p (pulled_frames env)) as [fs0|f].
  - destruct (maybe_align (aligner s) (align_process env) fs0) as [fs|f].
    + destruct (alloc_ok env); [|discriminate].
      destruct (map_ok env).
      * simpl in H. destruct (fill_buffer fs _) as [data|] eqn:Ef; [|discriminate].
        inversion H; subst r. exists data. split; [|reflexivity].
        apply fill_buffer_length in Ef. rewrite Ef, length_map, length_seq.
        reflexivity.
      * inversion H; subst r. simpl in Hflow. congruence.
    + inversion H; subst r. simpl in Hflow. congruence.
  - inversion H; subst r. simpl in Hflow. congruence.
Qed.

End CreateBounds.

(** X13. An SDK error while pulling or aligning the frame set ends
    [create] with [GST_FLOW_ERROR]: no buffer is stored, nothing is
    allocated, the element, the frame counter and the buffer index stay as
    they were, and the error names the failed SDK function. *)
Theorem create_sdk_error_leaves_nothing
  (env : create_env) (idx : Z) (s : GstRealsenseSrc) (p : rs2_pipeline) (f : string) :
  rs_pipeline s = Some p ->
  (rs2_wait_for_frames p (pulled_frames env) = SdkThrows f \/
   exists fs0, rs2_wait_for_frames p (pulled_frames env) = SdkOk fs0 /\
               maybe_align (aligner s) (align_process env) fs0 = SdkThrows f) ->
  gst_realsense_src_create env idx s
    = Returned (mkCreateResult GST_FLOW_ERROR None s idx [ErrSdk f]).
Proof.
  intros Hp [Hw | (fs0 & Hw & Ha)]; unfold gst_realsense_src_create;
    rewrite Hp, Hw; [reflexivity|]. rewrite Ha. reflexivity.
Qed.

Lemma create_sdk_error_leaves_nothing_witness :
  let s := started_state init_fields test_frames in
  let env := mkCreateEnv (SdkThrows "rs2_pipeline_wait_for_frames")
               (fun x => SdkOk x) 5000 1000 true true (fun _ => 255) in
  gst_realsense_src_create env 7 s
    = Returned (mkCreateResult GST_FLOW_ERROR None s 7
                  [ErrSdk "rs2_pipeline_wait_for_frames"]).
Proof.
  intros s env.
  apply (create_sdk_error_leaves_nothing env 7 s (mkPipeline true)).
  - reflexivity.
  - left. reflexivity.
Defined.

(** X14. After a [stop] that returned, no frame can be pulled: a later
    [create] ends with [GST_FLOW_ERROR] and no buffer, whatever the device
    would deliver, because [wait_for_frames] is refused on the stopped
    pipeline. *)
Theorem create_after_stop_is_error
  (env : create_env) (idx : Z) (s s1 : GstRealsenseSrc) (p : rs2_pipeline) :
  rs_pipeline s = Some p ->
  gst_realsense_src_stop s = Returned (true, s1) ->
  gst_realsense_src_create env idx s1
    = Returned (mkCreateResult GST_FLOW_ERROR None s1 idx
                  [ErrSdk "rs2_pipeline_wait_for_frames"]).
Proof.
  intros Hp Hstop.
  unfold gst_realsense_src_stop, gst_realsense_src_reset in Hstop.
  rewrite Hp in Hstop. unfold rs2_pipeline_stop in Hstop.
  destruct (pipeline_running p); [|discriminate].
  inversion Hstop; subst s1.
  unfold gst_realsense_src_create. cbn [rs_pipeline set_rs_pipeline
    set_caps_field set_frame_count set_out_framesize].
  unfold rs2_wait_for_frames. cbn [pipeline_running]. reflexivity.
Qed.

Lemma create_after_stop_is_error_witness :
  exists s1,
    gst_realsense_src_stop (started_state init_fields test_frames)
      = Returned (true, s1) /\
    gst_realsense_src_create (frames_env test_frames) 0 s1
      = Returned (mkCreateResult GST_FLOW_ERROR None s1 0
                    [ErrSdk "rs2_pipeline_wait_for_frames"]).
Proof.
  eexists. split; [reflexivity|].
  apply (create_after_stop_is_error (frames_env test_frames) 0
           (started_state init_fields test_frames) _ (mkPipeline true));
    reflexivity.
Defined.

(** X15. When [gst_buffer_map] fails, [create] returns [GST_FLOW_ERROR]
    with the map error posted, but the buffer it allocated (of the
    negotiated size, never written) stays stored through [buf]; the frame
    counter and the buffer index are not advanced. *)
Theorem create_map_failure_keeps_buffer
  (env : create_env) (idx : Z) (s : GstRealsenseSrc) (fs0 fs : frameset) :
  rs_pipeline s = Some (mkPipeline true) ->
  pulled_frames env = SdkOk fs0 ->
  maybe_align (aligner s) (align_process env) fs0 = SdkOk fs ->
  alloc_ok env = true ->
  map_ok env = false ->
  exists b,
    gst_realsense_src_create env idx s
      = Returned (mkCreateResult GST_FLOW_ERROR (Some b) s idx [ErrMap]) /\
    length (buf_data b) = Z.to_nat (out_framesize s) /\
    buf_data b = map (fresh_byte env) (seq 0 (Z.to_nat (out_framesize s))).
Proof.
  intros Hp Hpull Halign Halloc Hmap. eexists. split.
  - unfold gst_realsense_src_create.
    rewrite Hp. unfold rs2_wait_for_frames. cbn [pipeline_running].
    rewrite Hpull, Halign, Halloc, Hmap. reflexivity.
  - cbn [buf_data]. rewrite length_map, length_seq. split; reflexivity.
Qed.

Lemma create_map_failure_keeps_buffer_witness :
  let s := started_state init_fields test_frames in
  let env := mkCreateEnv (SdkOk test_frames) (fun x => SdkOk x)
               5000 1000 true false (fun _ => 255) in
  exists b,
    gst_realsense_src_create env 0 s
      = Returned (mkCreateResult GST_FLOW_ERROR (Some b) s 0 [ErrMap]) /\
    length (buf_data b) = Z.to_nat (out_framesize s) /\
    buf_data b = map (fresh_byte env) (seq 0 (Z.to_nat (out_framesize s))).
Proof.
  intros s env.
  apply (create_map_failure_keeps_buffer env 0 s test_frames test_frames);
    reflexivity.
Defined.

Section BufferSize.

Lemma create_buffer_length env idx s r b :
  gst_realsense_src_create env idx s = Returned r ->
  res_buf r = Some b ->
  length (buf_data b) = Z.to_nat (out_framesize s).
Proof.
  unfold gst_realsense_src_create. intros H Hb.
  destruct (rs_pipeline s) as [p|]; [|discriminate].
  destruct (rs2_wait_for_frames p (pulled_frames env)) as [fs0|f].
  - destruct (maybe_align (aligner s) (align_process env) fs0) as [fs|f].
    + destruct (alloc_ok env); [|discriminate].
      destruct (map_ok env).
      * simpl in H. destruct (fill_buffer fs _) as [data|] eqn:Ef; [|discriminate].
        inversion H; subst r. simpl in Hb. inversion Hb; subst b.
        apply fill_buffer_length in Ef. cbn [buf_data].
        rewrite Ef, length_map, length_seq. reflexivity.
      * inversion H; subst r. simpl in Hb. inversion Hb; subst b.
        cbn [buf_data]. rewrite length_map, length_seq. reflexivity.
    + inversion H; subst r. discriminate Hb.
  - inversion H; subst r. discriminate Hb.
Qed.

End BufferSize.

(** X16. The buffer size never changes within a session: whatever
    [create], [unlock] and [unlock_stop] calls came before, every buffer a
    [create] call stores has exactly the frame size the session started
    with. *)
Theorem session_buffers_have_one_size
  (s1 s : GstRealsenseSrc) (env : create_env) (idx : Z)
  (r : create_result) (b : GstBuffer) :
  streaming s1 s ->
  gst_realsense_src_create env idx s = Returned r ->
  res_buf r = Some b ->
  length (buf_data b) = Z.to_nat (out_framesize s1).
Proof.
  intros Hstr Hc Hb.
  rewrite <- (streaming_framesize s1 s Hstr).
  exact (create_buffer_length env idx s r b Hc Hb).
Qed.

Lemma session_buffers_have_one_size_witness :
  length [11; 12; 13; 21; 22; 23; 31; 32; 33; 41; 42; 43;
          7; 0; 7; 4; 123; 4; 9; 255; 9; 0; 0; 0]
    = Z.to_nat (out_framesize (started_state init_fields test_frames)).
Proof.
  pose (s1 := started_state init_fields test_frames).
  pose (data := [11; 12; 13; 21; 22; 23; 31; 32; 33; 41; 42; 43;
                 7; 0; 7; 4; 123; 4; 9; 255; 9; 0; 0; 0]).
  pose (s := set_frame_count 1 (snd (gst_realsense_src_unlock s1))).
  apply (session_buffers_have_one_size s1 s (frames_env test_frames) 1
           (mkCreateResult GST_FLOW_FLUSHING (Some (mkBuffer data 4000 4000 1))
              (set_frame_count 2 s) 2 [])
           (mkBuffer data 4000 4000 1)).
  - apply (streaming_create s1 (frames_env test_frames) 0
             (snd (gst_realsense_src_unlock s1))
             (mkCreateResult GST_FLOW_FLUSHING (Some (mkBuffer data 4000 4000 0))
                s 1 [])).
    + apply streaming_unlock. apply streaming_started.
    + reflexivity.
  - reflexivity.
  - reflexivity.
Defined.

(** X17. Past allocation and mapping, [create] stays inside the memory
    it owns exactly when the color frame holds at least half a buffer of
    bytes, the depth frame holds at least [num_pixels] samples and the
    lower half has room for [num_pixels] pixels -- [num_pixels] being the
    color frame's width x height as the [int] the code computes.
    Otherwise -- for instance with alignment off and a depth frame smaller
    than the color frame -- it reads or writes out of bounds. *)
Theorem create_memory_fault_iff
  (env : create_env) (idx : Z) (s : GstRealsenseSrc) (fs0 fs : frameset) :
  rs_pipeline s = Some (mkPipeline true) ->
  pulled_frames env = SdkOk fs0 ->
  maybe_align (aligner s) (align_process env) fs0 = SdkOk fs ->
  alloc_ok env = true ->
  map_ok env = true ->
  0 <= out_framesize s < 2 ^ 32 ->
  let size := Z.to_nat (out_framesize s) in
  let num_pixels :=
    Z.to_nat (to_gint (frame_width (get_color_frame fs)
                       * frame_height (get_color_frame fs))) in
  gst_realsense_src_create env idx s = MemoryFault <->
  ~ ((size / 2 <= length (frame_data (get_color_frame fs)))%nat /\
     (num_pixels <= length (frame_data (get_depth_frame fs)))%nat /\
     (num_pixels = 0%nat \/ size / 2 + 3 * num_pixels <= size)%nat).
Proof.
  intros Hp Hpull Halign Halloc Hmap _ size n.
  rewrite (create_past_mapping env idx s fs0 fs Hp Hpull Halign Halloc Hmap).
  pose proof (fill_buffer_Some_iff fs
                (map (fresh_byte env) (seq 0 (Z.to_nat (out_framesize s))))) as Hiff.
  cbv zeta in Hiff. rewrite length_map, length_seq in Hiff.
  fold size in Hiff. fold n in Hiff.
  destruct (fill_buffer fs _) as [data|].
  - split; [discriminate|]. intros Hn. exfalso. apply Hn.
    apply Hiff. exists data. reflexivity.
  - split; [|reflexivity]. intros _ Hc.
    apply Hiff in Hc as (data & Hd). discriminate.
Qed.

Lemma create_memory_fault_iff_witness :
  let fs := mkFrameset
              (mkFrame 4 1 [11; 12; 13; 21; 22; 23; 31; 32; 33; 41; 42; 43])
              (mkFrame 2 1 [7; 1234]) in
  gst_realsense_src_create (frames_env fs) 0
    (started_state (set_align (AlignOf AlignNone) init_fields) fs) = MemoryFault.
Proof.
  intros fs.
  apply (create_memory_fault_iff (frames_env fs) 0 _ fs fs); try reflexivity.
  - split; [apply Z.leb_le | apply Z.ltb_lt]; reflexivity.
  - vm_compute. lia.
Defined.

(** X18. Buffers are stamped with the clock time relative to the base
    time, and the decode timestamp equals the presentation timestamp;
    with the same base time and a clock that does not run backwards, the
    timestamps of two delivered buffers are in order. *)
Theorem create_timestamps_monotone
  (env1 env2 : create_env) (idx1 idx2 : Z) (s1 s2 : GstRealsenseSrc)
  (r1 r2 : create_result) (b1 b2 : GstBuffer) :
  gst_realsense_src_create env1 idx1 s1 = Returned r1 ->
  res_flow r1 <> GST_FLOW_ERROR -> res_buf r1 = Some b1 ->
  gst_realsense_src_create env2 idx2 s2 = Returned r2 ->
  res_flow r2 <> GST_FLOW_ERROR -> res_buf r2 = Some b2 ->
  base_time env2 = base_time env1 ->
  base_time env1 <= clock_time env1 <= clock_time env2 ->
  clock_time env2 - base_time env2 < 2 ^ 64 ->
  buf_timestamp b1 = clock_time env1 - base_time env1 /\
  buf_timestamp b2 = clock_time env2 - base_time env2 /\
  buf_timestamp b1 <= buf_timestamp b2 /\
  buf_dts b1 = buf_timestamp b1 /\ buf_dts b2 = buf_timestamp b2.
Proof.
  intros H1 F1 B1 H2 F2 B2 Hbase Hclk Hmax.
  destruct (create_delivered_inv _ _ _ _ H1 F1) as (d1 & _ & E1).
  destruct (create_delivered_inv _ _ _ _ H2 F2) as (d2 & _ & E2).
  subst r1 r2. simpl in B1, B2. inversion B1; subst b1. inversion B2; subst b2.
  cbn [buf_timestamp buf_dts]. unfold to_guint64.
  rewrite (Z.mod_small (clock_time env1 - base_time env1)) by lia.
  rewrite (Z.mod_small (clock_time env2 - base_time env2)) by lia.
  repeat split; try reflexivity. lia.
Qed.

Lemma create_timestamps_monotone_witness :
  let data := [11; 12; 13; 21; 22; 23; 31; 32; 33; 41; 42; 43;
               7; 0; 7; 4; 123; 4; 9; 255; 9; 0; 0; 0] in
  let b1 := mkBuffer data 4000 4000 0 in
  let b2 := mkBuffer data 4033 4033 1 in
  buf_timestamp b1 = 5000 - 1000 /\
  buf_timestamp b2 = 5033 - 1000 /\
  buf_timestamp b1 <= buf_timestamp b2 /\
  buf_dts b1 = buf_timestamp b1 /\ buf_dts b2 = buf_timestamp b2.
Proof.
  intros data b1 b2.
  pose (s := started_state init_fields test_frames).
  pose (env1 := mkCreateEnv (SdkOk test_frames) (fun x => SdkOk x)
                  5000 1000 true true (fun _ => 255)).
  pose (env2 := mkCreateEnv (SdkOk test_frames) (fun x => SdkOk x)
                  5033 1000 true true (fun _ => 255)).
  apply (create_timestamps_monotone env1 env2 0 1 s (set_frame_count 1 s)
           (mkCreateResult GST_FLOW_OK (Some b1) (set_frame_count 1 s) 1 [])
           (mkCreateResult GST_FLOW_OK (Some b2)
              (set_frame_count 2 (set_frame_count 1 s)) 2 [])
           b1 b2).
  - reflexivity.
  - discriminate.
  - reflexivity.
  - reflexivity.
  - discriminate.
  - reflexivity.
  - reflexivity.
  - simpl. lia.
  - simpl. lia.
Defined.

(** X19. Two [create] calls in a row that both deliver a buffer: the
    offsets are the buffer index before each call, converted from [int] to
    [guint64], the index being incremented in 32 bits in between; as long
    as the index is non-negative and below INT_MAX the two offsets are
    consecutive.  The frame counter advances by two (modulo 2^64). *)
Theorem create_numbers_buffers_consecutively
  (env1 env2 : create_env) (idx : Z) (s : GstRealsenseSrc)
  (r1 r2 : create_result) (b1 b2 : GstBuffer) :
  - 2 ^ 31 <= idx < 2 ^ 31 ->
  gst_realsense_src_create env1 idx s = Returned r1 ->
  res_flow r1 <> GST_FLOW_ERROR -> res_buf r1 = Some b1 ->
  gst_realsense_src_create env2 (res_buf_index r1) (res_src r1) = Returned r2 ->
  res_flow r2 <> GST_FLOW_ERROR -> res_buf r2 = Some b2 ->
  buf_offset b1 = to_guint64 idx /\
  buf_offset b2 = to_guint64 (to_gint (idx + 1)) /\
  (0 <= idx < 2 ^ 31 - 1 -> buf_offset b1 = idx /\ buf_offset b2 = idx + 1) /\
  frame_count (res_src r2) = to_guint64 (frame_count s + 2).
Proof.
  intros Hidx H1 F1 B1 H2 F2 B2.
  destruct (create_delivered_inv _ _ _ _ H1 F1) as (d1 & _ & E1).
  subst r1. cbn [res_src res_buf_index] in H2.
  destruct (create_delivered_inv _ _ _ _ H2 F2) as (d2 & _ & E2).
  subst r2. simpl in B1, B2. inversion B1; subst b1. inversion B2; subst b2.
  cbn [buf_offset res_buf_index res_src frame_count set_frame_count].
  split; [reflexivity|]. split; [reflexivity|]. split.
  - intros Hpos. unfold to_guint64, to_gint.
    change (2 ^ 31) with 2147483648 in *. change (2 ^ 32) with 4294967296.
    change (2 ^ 64) with 18446744073709551616.
    rewrite (Z.mod_small (idx + 1 + 2147483648) 4294967296) by lia.
    rewrite !Z.mod_small by lia. lia.
  - unfold to_guint64. rewrite Z.add_mod_idemp_l by lia. f_equal. lia.
Qed.

Lemma create_numbers_buffers_consecutively_witness :
  let s := started_state init_fields test_frames in
  let data := [11; 12; 13; 21; 22; 23; 31; 32; 33; 41; 42; 43;
               7; 0; 7; 4; 123; 4; 9; 255; 9; 0; 0; 0] in
  let b1 := mkBuffer data 4000 4000 0 in
  let b2 := mkBuffer data 4000 4000 1 in
  let r2 := mkCreateResult GST_FLOW_OK (Some b2)
              (set_frame_count 2 (set_frame_count 1 s)) 2 [] in
  buf_offset b1 = to_guint64 0 /\
  buf_offset b2 = to_guint64 (to_gint (0 + 1)) /\
  (0 <= 0 < 2 ^ 31 - 1 -> buf_offset b1 = 0 /\ buf_offset b2 = 0 + 1) /\
  frame_count (res_src r2) = to_guint64 (frame_count s + 2).
Proof.
  intros s data b1 b2 r2.
  apply (create_numbers_buffers_consecutively
           (frames_env test_frames) (frames_env test_frames) 0 s
           (mkCreateResult GST_FLOW_OK (Some b1) (set_frame_count 1 s) 1 [])
           r2 b1 b2).
  - simpl. lia.
  - reflexivity.
  - discriminate.
  - reflexivity.
  - reflexivity.
  - discriminate.
  - reflexivity.
Defined.

(** X20. The depth encoding loses nothing below 2560: two 16-bit samples
    below 2560 with the same three bytes are equal (the sample is
    10 * G + R), and every byte written is a value between 0 and 255. *)
Theorem encode_depth_injective_below_2560 (d1 d2 : Z) :
  0 <= d1 < 2560 -> 0 <= d2 < 2560 ->
  encode_depth d1 = encode_depth d2 ->
  d1 = d2 /\
  encode_depth d1 = [d1 mod 10; d1 / 10; d1 mod 10] /\
  Forall (fun b => 0 <= b < 256) (encode_depth d1).
Proof.
  intros H1 H2 E.
  assert (S1 : encode_depth d1 = [d1 mod 10; d1 / 10; d1 mod 10]).
  { rewrite encode_depth_spec by lia. unfold depth_pixel_spec.
    replace (d1 <? 2560) with true by (symmetry; apply Z.ltb_lt; lia).
    reflexivity. }
  assert (S2 : encode_depth d2 = [d2 mod 10; d2 / 10; d2 mod 10]).
  { rewrite encode_depth_spec by lia. unfold depth_pixel_spec.
    replace (d2 <? 2560) with true by (symmetry; apply Z.ltb_lt; lia).
    reflexivity. }
  rewrite S1, S2 in E. inversion E as [[Em Ed]].
  split.
  - rewrite (Z.div_mod d1 10), (Z.div_mod d2 10) by lia. rewrite Em, Ed. reflexivity.
  - split; [exact S1|]. rewrite S1.
    assert (0 <= d1 mod 10 < 10) by (apply Z.mod_pos_bound; lia).
    assert (0 <= d1 / 10 < 256)
      by (split; [apply Z.div_pos; lia | apply Z.div_lt_upper_bound; lia]).
    repeat constructor; lia.
Qed.

Lemma encode_depth_injective_below_2560_witness :
  1234 = 1234 /\
  encode_depth 1234 = [1234 mod 10; 1234 / 10; 1234 mod 10] /\
  Forall (fun b => 0 <= b < 256) (encode_depth 1234).
Proof.
  apply (encode_depth_injective_below_2560 1234 1234); [lia | lia | reflexivity].
Defined.

(** X21. The negotiated caps come from the first (aligned) frame set
    alone: width and doubled height of its color frame (as 32-bit values),
    and a frame rate of 30/1 whatever frame rates are configured; the
    frame size is the doubled height times the row stride, the row being
    width x 3 bytes rounded up to a multiple of 4. *)
Theorem start_caps_from_first_frame
  (env : start_env) (s s' : GstRealsenseSrc) (msgs : list message) :
  gst_realsense_src_start env s = Returned (true, s', msgs) ->
  exists fs0 fs v,
    first_frames env = SdkOk fs0 /\
    maybe_align (aligner s') (first_align env) fs0 = SdkOk fs /\
    caps s' = Some v /\
    caps_width v = frame_width (get_color_frame fs) mod 2 ^ 32 /\
    caps_height v = (frame_height (get_color_frame fs) * 2) mod 2 ^ 32 /\
    caps_fps_n v = 30 /\ caps_fps_d v = 1 /\
    out_framesize s' = ((caps_width v * 3 + 3) / 4 * 4 * caps_height v) mod 2 ^ 32 /\
    color_fps s' = color_fps s /\ depth_fps s' = depth_fps s.
Proof.
  intros H.
  destruct (start_true_state _ _ _ _ H)
    as (_ & dev & rest & m1 & u & fs0 & fs & _ & _ & _ & _ & Hf & Ha & Hs' & _).
  destruct (started_state_fields s fs)
    as (Hcm & Hdm & _ & _ & Hag & _ & _ & Hc & Ho & _).
  subst s'. exists fs0, fs. eexists.
  split; [exact Hf|]. split; [rewrite Hag; exact Ha|]. split; [exact Hc|].
  cbn [caps_width caps_height caps_fps_n caps_fps_d].
  unfold color_mode in Hcm. unfold depth_mode in Hdm.
  inversion Hcm as [[Ecw Ech Ecf]]. inversion Hdm as [[Edw Edh Edf]].
  repeat split; try reflexivity; try assumption.
Qed.

Lemma start_caps_from_first_frame_witness :
  let s := fst (gst_realsense_src_set_property (PROP_COLOR_FPS 6) init_fields) in
  exists fs0 fs v,
    first_frames d435i_env = SdkOk fs0 /\
    maybe_align (aligner (started_state s test_frames)) (first_align d435i_env) fs0
      = SdkOk fs /\
    caps (started_state s test_frames) = Some v /\
    caps_width v = frame_width (get_color_frame fs) mod 2 ^ 32 /\
    caps_height v = (frame_height (get_color_frame fs) * 2) mod 2 ^ 32 /\
    caps_fps_n v = 30 /\ caps_fps_d v = 1 /\
    out_framesize (started_state s test_frames)
      = ((caps_width v * 3 + 3) / 4 * 4 * caps_height v) mod 2 ^ 32 /\
    color_fps (started_state s test_frames) = color_fps s /\
    depth_fps (started_state s test_frames) = depth_fps s.
Proof.
  intros s.
  apply (start_caps_from_first_frame d435i_env s _ []).
  reflexivity.
Defined.

(* ===================================================================== *)
(** ** The frame sets a configured session receives *)
(* ===================================================================== *)

Section SessionFrames.

Lemma configured_locked (s : GstRealsenseSrc) :
  configured s -> color_locked s /\ depth_geometry_near s /\ modes_valid s.
Proof.
  induction 1 as [s Hinit | s p _ IH Hr].
  - rewrite init_returns in Hinit. inversion Hinit; subst.
    split; [unfold color_locked; simpl; tauto|].
    split; [left; reflexivity | split; reflexivity].
  - destruct IH as (Hc & Hd & Hv). split; [|split].
    + apply set_property_color_locked; assumption.
    + apply set_property_depth_near; [exact Hr | | exact Hd].
      exact (mode_in_positive DepthStream _ (proj2 Hv)).
    + apply set_property_modes_valid; assumption.
Qed.

Lemma depth_geometry_near_ext (s s' : GstRealsenseSrc) :
  depth_mode s' = depth_mode s -> depth_geometry_near s -> depth_geometry_near s'.
Proof.
  unfold depth_mode, depth_geometry_near. intros E.
  inversion E as [[Ew Eh Ef]]. rewrite Ew, Eh. tauto.
Qed.

(** [create] leaves the configuration and the aligner as they are. *)
Lemma create_keeps_config env idx s r :
  gst_realsense_src_create env idx s = Returned r ->
  color_mode (res_src r) = color_mode s /\
  depth_mode (res_src r) = depth_mode s /\
  aligner (res_src r) = aligner s.
Proof.
  unfold gst_realsense_src_create. intros H.
  destruct (rs_pipeline s) as [p|]; [|discriminate].
  destruct (rs2_wait_for_frames p (pulled_frames env)) as [fs0|f].
  - destruct (maybe_align (aligner s) (align_process env) fs0) as [fs|f].
    + destruct (alloc_ok env); [|discriminate].
      destruct (map_ok env).
      * simpl in H. destruct (fill_buffer fs _); [|discriminate].
        inversion H. repeat split; reflexivity.
      * inversion H. repeat split; reflexivity.
    + inversion H. repeat split; reflexivity.
  - inversion H. repeat split; reflexivity.
Qed.

Lemma streaming_config s1 s :
  streaming s1 s ->
  color_mode s = color_mode s1 /\ depth_mode s = depth_mode s1 /\
  aligner s = aligner s1.
Proof.
  induction 1 as [|env idx s r _ IH Hc|s _ IH|s _ IH].
  - repeat split; reflexivity.
  - destruct (create_keeps_config _ _ _ _ Hc) as (E1 & E2 & E3).
    destruct IH as (I1 & I2 & I3). repeat split; congruence.
  - exact IH.
  - exact IH.
Qed.

(** In a session of a property-configured element the configuration is the
    one X1 and X2 describe. *)
Lemma configured_session_locked env0 s0 s1 msgs s :
  configured s0 ->
  gst_realsense_src_start env0 s0 = Returned (true, s1, msgs) ->
  streaming s1 s ->
  color_locked s /\ depth_geometry_near s.
Proof.
  intros Hcfg Hstart Hstr.
  destruct (configured_locked s0 Hcfg) as (Hc & Hd & _).
  destruct (start_true_state _ _ _ _ Hstart)
    as (_ & dev & rest & m1 & u & fs0 & fs & _ & _ & _ & _ & _ & _ & Hs1 & _).
  destruct (started_state_fields s0 fs) as (Hcm & Hdm & _).
  rewrite <- Hs1 in Hcm, Hdm.
  destruct (streaming_config s1 s Hstr) as (Ec & Ed & _).
  split.
  - apply (color_locked_ext s0); [congruence | exact Hc].
  - apply (depth_geometry_near_ext s0); [congruence | exact Hd].
Qed.

(** With the color configuration at 1280x720 and the depth geometry among
    640x480, 848x480 and 640x360, the frames librealsense delivers -- as
    they are, or aligned to either stream -- are receivable: the depth
    frame is never larger than the color frame. *)
Lemma session_frames_receivable (s : GstRealsenseSrc) (fs0 fs : frameset) :
  color_locked s -> depth_geometry_near s ->
  device_frames s fs0 ->
  aligned_frames (aligner s) fs0 fs ->
  receivable_frames fs.
Proof.
  intros (Hcw & Hch & _) Hnear ((Cw & Ch & Cl) & (Dw & Dh & Dl) & D16) Hal.
  rewrite Hcw in Cw, Cl. rewrite Hch in Ch, Cl.
  assert (Hd : (depth_width s = 640 /\ depth_height s = 480)
               \/ (depth_width s = 848 /\ depth_height s = 480)
               \/ (depth_width s = 640 /\ depth_height s = 360)).
  { unfold depth_geometry_near in Hnear. simpl In in Hnear.
    destruct Hnear as [E|[E|[E|[]]]]; inversion E; tauto. }
  unfold receivable_frames. cbv zeta.
  destruct (aligner s) as [[| |]|]; simpl in Hal.
  - subst fs. rewrite Cw, Ch, Cl, Dl.
    destruct Hd as [[-> ->]|[[-> ->]|[-> ->]]];
      (split; [lia|]; split; [reflexivity|]; split; [lia | exact D16]).
  - destruct Hal as (Ec & (Aw & Ah & Al) & A16).
    rewrite Ec, Cw, Ch, Cl, Al, Cw, Ch.
    split; [lia|]. split; [reflexivity|]. split; [lia | exact A16].
  - destruct Hal as (Ed & (Aw & Ah & Al)).
    rewrite Ed, Aw, Ah, Al, Dw, Dh, Dl.
    destruct Hd as [[-> ->]|[[-> ->]|[-> ->]]];
      (split; [lia|]; split; [reflexivity|]; split; [lia | exact D16]).
  - subst fs. rewrite Cw, Ch, Cl, Dl.
    destruct Hd as [[-> ->]|[[-> ->]|[-> ->]]];
      (split; [lia|]; split; [reflexivity|]; split; [lia | exact D16]).
Qed.

(** With both stored modes in their tables, the aligned color frame has the
    geometry of a table mode. *)
Lemma aligned_color_frame_supported (s : GstRealsenseSrc) (fs0 fs : frameset) :
  modes_valid s ->
  device_frames s fs0 ->
  aligned_frames (aligner s) fs0 fs ->
  supported_geometry (frame_width (get_color_frame fs))
                     (frame_height (get_color_frame fs)) = true.
Proof.
  intros (Hc & Hd) ((Cw & Ch & _) & (Dw & Dh & _) & _) Hal.
  unfold mode_in, color_mode in Hc. unfold mode_in, depth_mode in Hd.
  apply is_valid_mode_In in Hc. apply is_valid_mode_In in Hd.
  unfold supported_geometry. apply existsb_exists.
  assert (Hcolor : exists m : mode,
             In m (valid_color_modes ++ valid_depth_modes) /\
             (let '(tw, th, _) := m in
              (tw =? frame_width (get_color_frame fs0))
              && (th =? frame_height (get_color_frame fs0))) = true).
  { exists (color_width s, color_height s, color_fps s).
    split; [apply in_or_app; left; exact Hc|].
    rewrite Cw, Ch, !Z.eqb_refl. reflexivity. }
  destruct (aligner s) as [[| |]|]; simpl in Hal.
  - subst fs. exact Hcolor.
  - destruct Hal as (Ec & _). rewrite Ec. exact Hcolor.
  - destruct Hal as (_ & (Aw & Ah & _)).
    exists (depth_width s, depth_height s, depth_fps s).
    split; [apply in_or_app; right; exact Hd|].
    rewrite Aw, Ah, Dw, Dh, !Z.eqb_refl. reflexivity.
  - subst fs. exact Hcolor.
Qed.

Lemma blank_frame_geometry (w h per_pixel : Z) :
  frame_has_geometry (blank_frame w h per_pixel) w h per_pixel.
Proof.
  unfold frame_has_geometry, blank_frame. cbn [frame_width frame_height frame_data].
  rewrite repeat_length. repeat split; reflexivity.
Qed.

Lemma blank_frame_16bit (w h per_pixel : Z) :
  Forall (fun d => 0 <= d < 65536) (frame_data (blank_frame w h per_pixel)).
Proof.
  unfold blank_frame. cbn [frame_data]. apply Forall_forall.
  intros x Hx. apply repeat_spec in Hx. subst x. lia.
Qed.

(** The default configuration's frames meet the conditions above. *)
Lemma default_frames_receivable :
  device_frames init_fields default_device_frames /\
  aligned_frames (Some AlignColor) default_device_frames default_frames_aligned_to_color /\
  aligned_frames (Some AlignDepth) default_device_frames default_frames_aligned_to_depth /\
  receivable_frames default_frames_aligned_to_color /\
  receivable_frames default_frames_aligned_to_depth.
Proof.
  assert (Hdev : device_frames init_fields default_device_frames).
  { split; [apply blank_frame_geometry|].
    split; [apply blank_frame_geometry | apply blank_frame_16bit]. }
  assert (Hac : aligned_frames (Some AlignColor)
                  default_device_frames default_frames_aligned_to_color).
  { unfold default_device_frames, default_frames_aligned_to_color.
    cbn [aligned_frames get_color_frame get_depth_frame].
    split; [exact eq_refl|].
    split; [apply blank_frame_geometry | apply blank_frame_16bit]. }
  assert (Had : aligned_frames (Some AlignDepth)
                  default_device_frames default_frames_aligned_to_depth).
  { unfold default_device_frames, default_frames_aligned_to_depth.
    cbn [aligned_frames get_color_frame get_depth_frame].
    split; [exact eq_refl | apply blank_frame_geometry]. }
  split; [exact Hdev|]. split; [exact Hac|]. split; [exact Had|].
  split.
  - apply (session_frames_receivable
             (set_aligner (Some AlignColor) init_fields) default_device_frames).
    + unfold color_locked. simpl. tauto.
    + left. reflexivity.
    + exact Hdev.
    + exact Hac.
  - apply (session_frames_receivable
             (set_aligner (Some AlignDepth) init_fields) default_device_frames).
    + unfold color_locked. simpl. tauto.
    + left. reflexivity.
    + exact Hdev.
    + exact Had.
Qed.

End SessionFrames.

(** C2 as stated fails: with [align] set to 2 (Depth) on the default
    configuration, the device reports a 1280x720 color frame, the aligner
    reprojects it into the depth geometry 640x480, and [start] negotiates
    a height of 960 -- twice the aligned frame's height, not twice the
    720 the device reported. *)
Lemma start_at_align_depth_negotiates_depth_height :
  ~ caps_from_device_frame.
Proof.
  intros claim.
  pose (env := mkStartEnv (SdkOk [mkDevice D435I_NAME "0001" false])
                 (SdkOk tt) None (SdkOk tt) (SdkOk tt)
                 (SdkOk default_device_frames)
                 (fun _ => SdkOk default_frames_aligned_to_depth)).
  pose (s0 := fst (gst_realsense_src_set_property (PROP_ALIGN 2) init_fields)).
  assert (Hv : modes_valid s0) by (split; reflexivity).
  assert (Hs : gst_realsense_src_start env s0
               = Returned (true, started_state s0 default_frames_aligned_to_depth,
                           [] ++ snd (select_aligner
                                        (set_rs_pipeline (Some (mkPipeline false)) s0))
                              ++ [])).
  { rewrite (start_after_validation env s0 Hv).
    apply (start_session_ok env s0 (mkDevice D435I_NAME "0001" false) [] [] tt
             default_device_frames default_frames_aligned_to_depth);
      exact eq_refl. }
  destruct (claim env s0 _ _ default_device_frames Hs eq_refl) as (v & Hc & Hh & _).
  destruct (started_state_fields s0 default_frames_aligned_to_depth)
    as (_ & _ & _ & _ & _ & _ & _ & Hcaps & _).
  rewrite Hcaps in Hc. inversion Hc; subst v.
  cbn [caps_height] in Hh.
  change (frame_height (get_color_frame default_frames_aligned_to_depth))
    with 480 in Hh.
  change (frame_height (get_color_frame default_device_frames)) with 720 in Hh.
  vm_compute in Hh. discriminate Hh.
Qed.
